(** * HTTPMultipartBuilder (crashpad, util/net/http_multipart_builder.cc)

    A shallow embedding of the multipart/form-data body builder and the
    properties of its specification.

    - [std::string] is [string]: a sequence of 8-bit characters that may
      contain NUL.
    - [std::map<std::string, T>] is a finite map over strings whose
      enumeration is sorted by key ([FMapList] over [String_as_OT], the
      lexicographic order on character codes that [std::less<std::string>]
      implements).
    - A method of the builder is a function from the builder's state to an
      outcome: either a result with the new state, or the termination of the
      process by a failed [CHECK]. *)

From Stdlib Require Import String Ascii List Bool ZArith NArith Lia.
From Stdlib Require Import FMapList FMapFacts OrderedTypeEx.
Import ListNotations.

Local Open Scope string_scope.

Module M := FMapList.Make(String_as_OT).
Module F := FMapFacts.Facts(M).
Module P := FMapFacts.OrdProperties(M).

(** ** Characters *)

Definition NUL : ascii := "000"%char.
Definition CR : ascii := "013"%char.
Definition LF : ascii := "010"%char.
Definition DQUOTE : ascii := "034"%char.
Definition PERCENT : ascii := "%"%char.

(** The value of a [char] once promoted to [int]. [char] is taken signed, as
    on the x86 targets of the program; every comparison and conversion below
    gives the same answer for an unsigned [char], since the characters that
    are compared against or converted all lie below 128. *)
Definition int_of_char (c : ascii) : Z :=
  let n := Z.of_N (N_of_ascii c) in
  if (n <? 128)%Z then n else (n - 256)%Z.

(** A character literal used as an [int]. *)
Definition lit (c : ascii) : Z := int_of_char c.

(** ** C strings and [base::StringPrintf] *)

(** [s.c_str()] as read by a consumer of NUL-terminated strings: the
    characters before the first NUL. *)
Fixpoint c_str (s : string) : string :=
  match s with
  | EmptyString => EmptyString
  | String c rest => if Ascii.eqb c NUL then EmptyString else String c (c_str rest)
  end.

Definition strlen (s : string) : nat := String.length (c_str s).

Definition hex_digit (d : Z) : ascii :=
  match String.get (Z.to_nat d) "0123456789abcdef" with
  | Some c => c
  | None => NUL
  end.

(** The hexadecimal digits of [n], most significant first, at most [digits]
    of them. *)
Fixpoint to_hex (digits : nat) (n : Z) : string :=
  match digits with
  | O => EmptyString
  | S d =>
      (if (n <? 16)%Z then EmptyString else to_hex d (n / 16))
        ++ String (hex_digit (n mod 16)) EmptyString
  end.

(** The conversion [%02x] of an [int] argument: the argument is read as a
    32-bit unsigned value and printed in lower-case hexadecimal, padded with
    zeros to two characters. *)
Definition format_02x (n : Z) : string :=
  let h := to_hex 8 (n mod 2 ^ 32) in
  if (String.length h <? 2)%nat then String "0" h else h.

Inductive PrintfArg : Type :=
| arg_str (s : string)   (* a [const char*], here always some [x.c_str()] or a literal *)
| arg_int (n : Z).

(** [base::StringPrintf] for the directives that the program uses: [%%],
    [%s] and [%02x]. An argument of the wrong kind or a missing argument is
    undefined behaviour in C++; the model stops the output there. *)
Fixpoint StringPrintf (fmt : string) (args : list PrintfArg) : string :=
  match fmt with
  | EmptyString => EmptyString
  | String c rest =>
      if Ascii.eqb c PERCENT then
        match rest with
        | String d rest1 =>
            if Ascii.eqb d PERCENT then String PERCENT (StringPrintf rest1 args)
            else if Ascii.eqb d "s" then
              match args with
              | arg_str s :: args' => c_str s ++ StringPrintf rest1 args'
              | _ => EmptyString
              end
            else if Ascii.eqb d "0" then
              match rest1 with
              | String e (String f rest3) =>
                  if Ascii.eqb e "2" && Ascii.eqb f "x" then
                    match args with
                    | arg_int n :: args' => format_02x n ++ StringPrintf rest3 args'
                    | _ => EmptyString
                    end
                  else EmptyString
              | _ => EmptyString
              end
            else EmptyString
        | EmptyString => EmptyString
        end
      else String c (StringPrintf rest args)
  end.

(** ** Constants of the translation unit *)

Definition kCRLF : string := String CR (String LF EmptyString).
Definition kBoundaryCRLF : string := kCRLF ++ kCRLF.

(** A string holding the single character [c]. *)
Definition str1 (c : ascii) : string := String c EmptyString.

(** ** EncodeMIMEField *)

(** The [switch] of [EncodeMIMEField]: the four [case] labels. *)
Definition is_escaped_char (c : ascii) : bool :=
  Ascii.eqb c CR || Ascii.eqb c LF || Ascii.eqb c DQUOTE || Ascii.eqb c PERCENT.

Fixpoint EncodeMIMEField (name : string) : string :=
  match name with
  | EmptyString => EmptyString
  | String character rest =>
      (if is_escaped_char character
       then StringPrintf "%%%02x" [arg_int (int_of_char character)]
       else str1 character)
        ++ EncodeMIMEField rest
  end.

(** ** GetFormDataBoundary *)

Definition GetFormDataBoundary (boundary name : string) : string :=
  StringPrintf
    ("--%s%sContent-Disposition: form-data; name=" ++ str1 DQUOTE ++ "%s" ++ str1 DQUOTE)
    [arg_str boundary; arg_str kCRLF; arg_str (EncodeMIMEField name)].

(** ** CHECK and AssertSafeMIMEType *)

(** A computation that a failed [CHECK] may end by terminating the process. *)
Inductive Checked (A : Type) : Type :=
| Ok (a : A)
| Fatal.
Arguments Ok {A} a.
Arguments Fatal {A}.

Definition CHECK (cond : bool) : Checked unit :=
  if cond then Ok tt else Fatal.

Definition safe_mime_char (c : ascii) : bool :=
  let v := int_of_char c in
  ((lit "a" <=? v) && (v <=? lit "z"))%Z
  || ((lit "A" <=? v) && (v <=? lit "Z"))%Z
  || ((lit "0" <=? v) && (v <=? lit "9"))%Z
  || Ascii.eqb c "/"
  || Ascii.eqb c "."
  || Ascii.eqb c "_"
  || Ascii.eqb c "+"
  || Ascii.eqb c "-".

Fixpoint AssertSafeMIMEType (s : string) : Checked unit :=
  match s with
  | EmptyString => Ok tt
  | String c rest =>
      match CHECK (safe_mime_char c) with
      | Ok _ => AssertSafeMIMEType rest
      | Fatal => Fatal
      end
  end.

(** ** Body streams (util/net/http_body.h) *)

(** [base::FilePath]: the name of a file. *)
Definition FilePath : Type := string.

#[local] Set Warnings "-register-all".
Inductive HTTPBodyStream : Type :=
| StringHTTPBodyStream (s : string)
| FileHTTPBodyStream (path : FilePath)
| CompositeHTTPBodyStream (parts : list HTTPBodyStream).

(** What reading a file to its end gives: its bytes, or nothing when the
    file cannot be opened or read. *)
Definition FileSystem : Type := FilePath -> option string.

(** Modelled from the spec: reading a stream to its end, which the stream
    classes of util/net/http_body.cc implement and this translation unit only
    uses. A string stream yields its string, a file stream the bytes of its
    file (a read error when the file is inaccessible), and a composite stream
    reads each part to exhaustion before advancing to the next, presenting
    their concatenation; a read error of a part is the read error of the
    whole. *)
Fixpoint ReadAll (fs : FileSystem) (stream : HTTPBodyStream) : option string :=
  match stream with
  | StringHTTPBodyStream s => Some s
  | FileHTTPBodyStream path => fs path
  | CompositeHTTPBodyStream parts =>
      (fix read_parts (l : list HTTPBodyStream) : option string :=
         match l with
         | [] => Some EmptyString
         | part :: l' =>
             match ReadAll fs part with
             | Some bytes =>
                 match read_parts l' with
                 | Some more => Some (bytes ++ more)
                 | None => None
                 end
             | None => None
             end
         end) parts
  end.

(** ** The builder's state *)

Record FileAttachment : Type := {
  filename : string;
  path : FilePath;
  content_type : string
}.

Record HTTPMultipartBuilder : Type := {
  boundary_ : string;
  form_data_ : M.t string;
  file_attachments_ : M.t FileAttachment
}.

(** The accessor [boundary()] of the class. *)
Definition boundary (this : HTTPMultipartBuilder) : string := boundary_ this.

(** ** Methods: state passing with fatal termination *)

Definition Method (A : Type) : Type :=
  HTTPMultipartBuilder -> Checked (A * HTTPMultipartBuilder).

Definition ret {A} (a : A) : Method A := fun this => Ok (a, this).

Definition bind {A B} (m : Method A) (k : A -> Method B) : Method B :=
  fun this =>
    match m this with
    | Ok (a, this') => k a this'
    | Fatal => Fatal
    end.

Definition get_this : Method HTTPMultipartBuilder := fun this => Ok (this, this).

Definition set_form_data (m : M.t string) : Method unit :=
  fun this =>
    Ok (tt, {| boundary_ := boundary_ this;
               form_data_ := m;
               file_attachments_ := file_attachments_ this |}).

Definition set_file_attachments (m : M.t FileAttachment) : Method unit :=
  fun this =>
    Ok (tt, {| boundary_ := boundary_ this;
               form_data_ := form_data_ this;
               file_attachments_ := m |}).

(** A call of a free function that may fail a [CHECK]. *)
Definition call {A} (c : Checked A) : Method A :=
  fun this =>
    match c with
    | Ok a => Ok (a, this)
    | Fatal => Fatal
    end.

Declare Scope method_scope.
Delimit Scope method_scope with method.
Notation "x <- m ;; k" := (bind m (fun x => k))
  (at level 61, m at next level, right associativity) : method_scope.
Notation "m ;; k" := (bind m (fun _ => k))
  (at level 61, right associativity) : method_scope.

Local Open Scope method_scope.

(** ** EraseKey *)

(** [find] followed by [erase] of the iterator when it is not [end()], in
    the one map and then in the other. *)
Definition EraseKey (key : string) : Method unit :=
  this <- get_this ;;
  (match M.find key (form_data_ this) with
   | Some _ => set_form_data (M.remove key (form_data_ this))
   | None => ret tt
   end) ;;
  this <- get_this ;;
  (match M.find key (file_attachments_ this) with
   | Some _ => set_file_attachments (M.remove key (file_attachments_ this))
   | None => ret tt
   end).

(** ** SetFormData *)

Definition SetFormData (key value : string) : Method unit :=
  EraseKey key ;;
  this <- get_this ;;
  set_form_data (M.add key value (form_data_ this)).

(** ** SetFileAttachment *)

Definition SetFileAttachment
    (key upload_file_name : string) (path : FilePath) (content_type : string)
    : Method unit :=
  EraseKey upload_file_name ;;
  attachment_content_type <-
    (match content_type with
     | EmptyString => ret "application/octet-stream"
     | _ => call (AssertSafeMIMEType content_type) ;; ret content_type
     end) ;;
  let attachment :=
    {| filename := EncodeMIMEField upload_file_name;
       path := path;
       content_type := attachment_content_type |} in
  this <- get_this ;;
  set_file_attachments (M.add key attachment (file_attachments_ this)).

(** ** GetBodyStream *)

(** The body of the first loop: the stream of one form field. *)
Definition field_stream (boundary : string) (pair : string * string) : HTTPBodyStream :=
  let field := GetFormDataBoundary boundary (fst pair) in
  let field := field ++ kBoundaryCRLF in
  let field := field ++ snd pair in
  let field := field ++ kCRLF in
  StringHTTPBodyStream field.

(** The body of the second loop: the three streams of one attachment. *)
Definition attachment_streams (boundary : string) (pair : string * FileAttachment)
    : list HTTPBodyStream :=
  let attachment := snd pair in
  let header := GetFormDataBoundary boundary (fst pair) in
  let header :=
    header ++ StringPrintf ("; filename=" ++ str1 DQUOTE ++ "%s" ++ str1 DQUOTE ++ "%s")
                [arg_str (filename attachment); arg_str kCRLF] in
  let header :=
    header ++ StringPrintf "Content-Type: %s%s"
                [arg_str (content_type attachment); arg_str kBoundaryCRLF] in
  [StringHTTPBodyStream header;
   FileHTTPBodyStream (path attachment);
   StringHTTPBodyStream kCRLF].

Definition GetBodyStream : Method HTTPBodyStream :=
  this <- get_this ;;
  let streams : list HTTPBodyStream := [] in
  let streams :=
    fold_left (fun streams pair => (streams ++ [field_stream (boundary this) pair])%list)
              (M.elements (form_data_ this)) streams in
  let streams :=
    fold_left (fun streams pair => (streams ++ attachment_streams (boundary this) pair)%list)
              (M.elements (file_attachments_ this)) streams in
  let streams :=
    (streams ++ [StringHTTPBodyStream ("--" ++ boundary this ++ "--" ++ kCRLF)])%list in
  ret (CompositeHTTPBodyStream streams).

(** ** Boundary generation and construction *)

Definition kCharacters : string :=
  "0123456789ABCDEFGHIJKLMNOPQRSTUVWXYZabcdefghijklmnopqrstuvwxyz".

(** The conversion of the [uint64_t] result of [base::RandGenerator] to
    [int]. *)
Definition int_of_uint64 (v : N) : Z :=
  let w := (Z.of_N v mod 2 ^ 32)%Z in
  if (w <? 2 ^ 31)%Z then w else (w - 2 ^ 32)%Z.

(** [array[i]] on a character array holding the string [s] and its
    terminating NUL. An index outside the array is undefined behaviour in
    C++; the model reads NUL there. *)
Definition char_at (s : string) (i : Z) : ascii :=
  if (i <? 0)%Z then NUL
  else match String.get (Z.to_nat i) s with
       | Some c => c
       | None => NUL
       end.

Section Boundary.

(** The process-wide random source behind [base::RandGenerator]: a state
    [Rand], and [RandGenerator range], which returns a value and the next
    state. *)
Variable Rand : Type.
Variable RandGenerator : N -> Rand -> N * Rand.

(** The [for] loop of [GenerateBoundaryString] with [count] iterations
    left. *)
Fixpoint boundary_loop (count : nat) (boundary_string : string) (rng : Rand)
    : string * Rand :=
  match count with
  | O => (boundary_string, rng)
  | S count' =>
      let (v, rng') := RandGenerator (N.of_nat (strlen kCharacters)) rng in
      let random_value := int_of_uint64 v in
      boundary_loop count'
        (boundary_string ++ str1 (char_at kCharacters random_value)) rng'
  end.

Definition GenerateBoundaryString (rng : Rand) : string * Rand :=
  let boundary_string := "---MultipartBoundary-" in
  let (boundary_string, rng') := boundary_loop 32 boundary_string rng in
  (boundary_string ++ "---", rng').

(** The constructor. *)
Definition new_HTTPMultipartBuilder (rng : Rand) : HTTPMultipartBuilder * Rand :=
  let (b, rng') := GenerateBoundaryString rng in
  ({| boundary_ := b;
      form_data_ := M.empty string;
      file_attachments_ := M.empty FileAttachment |}, rng').

End Boundary.

Arguments boundary_loop {Rand} RandGenerator count boundary_string rng.
Arguments GenerateBoundaryString {Rand} RandGenerator rng.
Arguments new_HTTPMultipartBuilder {Rand} RandGenerator rng.

(** * Notions of the specification and of the proofs *)

(** ** Strings *)

(** No character of [s] is NUL. *)
Fixpoint nul_free (s : string) : bool :=
  match s with
  | EmptyString => true
  | String c rest => negb (Ascii.eqb c NUL) && nul_free rest
  end.

Fixpoint all_chars (p : ascii -> bool) (s : string) : bool :=
  match s with
  | EmptyString => true
  | String c rest => p c && all_chars p rest
  end.

Fixpoint concat_strings (l : list string) : string :=
  match l with
  | [] => EmptyString
  | s :: l' => s ++ concat_strings l'
  end.

Definition count {A : Type} (p : A -> bool) (l : list A) : nat :=
  List.length (filter p l).

Definition crlf : string := String CR (String LF EmptyString).
Definition quote : string := String DQUOTE EmptyString.

(** ** The escaping in the words of the specification *)

(** The code of a character as two hexadecimal digits. *)
Definition two_digit_hex (c : ascii) : string :=
  let code := Z.of_N (N_of_ascii c) in
  String (hex_digit (code / 16)) (String (hex_digit (code mod 16)) EmptyString).

(** Carriage return, line feed, double quote and percent are replaced by a
    percent sign and their code; every other byte is left as it is. *)
Definition percent_encode_char (c : ascii) : string :=
  if Ascii.eqb c CR || Ascii.eqb c LF || Ascii.eqb c DQUOTE || Ascii.eqb c PERCENT
  then String PERCENT (two_digit_hex c)
  else str1 c.

Fixpoint percent_encode (s : string) : string :=
  match s with
  | EmptyString => EmptyString
  | String c rest => percent_encode_char c ++ percent_encode rest
  end.

(** The two characters after a percent sign are the code of one of the four
    escaped characters. *)
Definition is_escape_code (h l : ascii) : bool :=
  (Ascii.eqb h "0" && Ascii.eqb l "d")
  || (Ascii.eqb h "0" && Ascii.eqb l "a")
  || (Ascii.eqb h "2" && Ascii.eqb l "2")
  || (Ascii.eqb h "2" && Ascii.eqb l "5").

(** [s] has no literal carriage return, line feed or double quote, and each
    of its percent signs starts an escape sequence. *)
Fixpoint well_escaped (s : string) : bool :=
  match s with
  | EmptyString => true
  | String c rest =>
      if Ascii.eqb c PERCENT then
        match rest with
        | String h (String l rest') => is_escape_code h l && well_escaped rest'
        | _ => false
        end
      else negb (Ascii.eqb c CR) && negb (Ascii.eqb c LF)
           && negb (Ascii.eqb c DQUOTE) && well_escaped rest
  end.

(** ** The methods as functions of the state *)

(** What [EraseKey] does to one map. *)
Definition erase_key {V : Type} (key : string) (m : M.t V) : M.t V :=
  match M.find key m with
  | Some _ => M.remove key m
  | None => m
  end.

(** The state that [SetFileAttachment] leaves when no [CHECK] fails, for the
    content type [stored] that it keeps. *)
Definition attached (key upload_file_name : string) (path : FilePath)
    (stored : string) (this : HTTPMultipartBuilder) : HTTPMultipartBuilder :=
  {| boundary_ := boundary_ this;
     form_data_ := erase_key upload_file_name (form_data_ this);
     file_attachments_ :=
       M.add key {| filename := EncodeMIMEField upload_file_name;
                    path := path;
                    content_type := stored |}
             (erase_key upload_file_name (file_attachments_ this)) |}.

(** The streams that [GetBodyStream] collects, in order. *)
Definition body_streams (this : HTTPMultipartBuilder) : list HTTPBodyStream :=
  (map (field_stream (boundary this)) (M.elements (form_data_ this))
   ++ flat_map (attachment_streams (boundary this)) (M.elements (file_attachments_ this))
   ++ [StringHTTPBodyStream ("--" ++ boundary this ++ "--" ++ kCRLF)])%list.

(** ** The content type in the words of the specification *)

(** The characters that the specification allows in a content type:
    [A-Za-z0-9/._+-]. *)
Definition safe_mime_alphabet : string :=
  "ABCDEFGHIJKLMNOPQRSTUVWXYZabcdefghijklmnopqrstuvwxyz0123456789/._+-".

Definition in_safe_set (c : ascii) : bool :=
  existsb (Ascii.eqb c) (list_ascii_of_string safe_mime_alphabet).

Definition stored_content_type (key : string) (this : HTTPMultipartBuilder)
    : option string :=
  option_map content_type (M.find key (file_attachments_ this)).

(** The state that a method leaves. *)
Definition state_after {A : Type} (m : Method A) (this : HTTPMultipartBuilder)
    : HTTPMultipartBuilder :=
  match m this with
  | Ok (_, this') => this'
  | Fatal => this
  end.

Definition empty_builder (b : string) : HTTPMultipartBuilder :=
  {| boundary_ := b;
     form_data_ := M.empty string;
     file_attachments_ := M.empty FileAttachment |}.

(** ** The layout of the body in the words of the specification *)

Definition form_field_segment (b key value : string) : string :=
  "--" ++ b ++ crlf
    ++ "Content-Disposition: form-data; name=" ++ quote ++ EncodeMIMEField key ++ quote
    ++ crlf ++ crlf ++ value ++ crlf.

(** [escaped_filename] is the file name as the attachment stores it, which
    [SetFileAttachment] has escaped. *)
Definition attachment_header_segment (b key escaped_filename ctype : string) : string :=
  "--" ++ b ++ crlf
    ++ "Content-Disposition: form-data; name=" ++ quote ++ EncodeMIMEField key ++ quote
    ++ "; filename=" ++ quote ++ escaped_filename ++ quote ++ crlf
    ++ "Content-Type: " ++ ctype ++ crlf ++ crlf.

Definition closing_segment (b : string) : string := "--" ++ b ++ "--" ++ crlf.

Definition spec_field_part (b : string) (kv : string * string) : HTTPBodyStream :=
  StringHTTPBodyStream (form_field_segment b (fst kv) (snd kv)).

Definition spec_attachment_part (b : string) (ka : string * FileAttachment)
    : list HTTPBodyStream :=
  [StringHTTPBodyStream
     (attachment_header_segment b (fst ka) (filename (snd ka)) (content_type (snd ka)));
   FileHTTPBodyStream (path (snd ka));
   StringHTTPBodyStream crlf].

Definition spec_layout (this : HTTPMultipartBuilder) : list HTTPBodyStream :=
  (map (spec_field_part (boundary_ this)) (M.elements (form_data_ this))
   ++ flat_map (spec_attachment_part (boundary_ this)) (M.elements (file_attachments_ this))
   ++ [StringHTTPBodyStream (closing_segment (boundary_ this))])%list.

(** The bytes of the body when the file at [p] holds [content p]. *)
Definition spec_bytes (content : FilePath -> string) (this : HTTPMultipartBuilder)
    : string :=
  concat_strings
    (map (fun kv => form_field_segment (boundary_ this) (fst kv) (snd kv))
         (M.elements (form_data_ this)))
  ++ concat_strings
       (map (fun ka =>
               attachment_header_segment (boundary_ this) (fst ka)
                 (filename (snd ka)) (content_type (snd ka))
               ++ content (path (snd ka)) ++ crlf)
            (M.elements (file_attachments_ this)))
  ++ closing_segment (boundary_ this).

(** The claim on the layout: [GetBodyStream] returns the composite of the
    segments above, which reads as the bytes above. *)
Definition has_spec_layout (this : HTTPMultipartBuilder) : Prop :=
  exists stream,
    GetBodyStream this = Ok (stream, this)
    /\ stream = CompositeHTTPBodyStream (spec_layout this)
    /\ forall content : FilePath -> string,
         ReadAll (fun p => Some (content p)) stream = Some (spec_bytes content this).

(** The boundary, the keys, the stored file names and the stored content
    types have no NUL character. *)
Definition nul_free_state (this : HTTPMultipartBuilder) : bool :=
  nul_free (boundary_ this)
  && forallb (fun kv => nul_free (fst kv)) (M.elements (form_data_ this))
  && forallb (fun ka => nul_free (fst ka) && nul_free (filename (snd ka))
                        && nul_free (content_type (snd ka)))
             (M.elements (file_attachments_ this)).

Fixpoint read_list (fs : FileSystem) (l : list HTTPBodyStream) : option string :=
  match l with
  | [] => Some EmptyString
  | part :: l' =>
      match ReadAll fs part with
      | Some bytes =>
          match read_list fs l' with
          | Some more => Some (bytes ++ more)
          | None => None
          end
      | None => None
      end
  end.

(** ** Counting the parts *)

(** The start of a part as it is emitted: the delimiter line, whose boundary
    goes through [%s], and the start of the [Content-Disposition] header. For
    a boundary without NUL, this is [--{boundary}CRLF] and the header. *)
Definition part_header_prefix (b : string) : string :=
  "--" ++ c_str b ++ crlf ++ "Content-Disposition: form-data; name=" ++ quote.

Definition is_part_header (b : string) (s : HTTPBodyStream) : bool :=
  match s with
  | StringHTTPBodyStream t => String.prefix (part_header_prefix b) t
  | _ => false
  end.

Definition is_closing (b : string) (s : HTTPBodyStream) : bool :=
  match s with
  | StringHTTPBodyStream t => String.eqb t (closing_segment b)
  | _ => false
  end.

(** ** The header lines in the words of the specification *)

Definition disposition_name_line (t : string) : string :=
  "Content-Disposition: form-data; name=" ++ quote ++ t ++ quote.

Definition disposition_file_line (t f : string) : string :=
  disposition_name_line t ++ "; filename=" ++ quote ++ f ++ quote.

(** No character of [s] is a carriage return, a line feed or a double
    quote. *)
Definition no_literal_break_or_quote (s : string) : bool :=
  all_chars (fun c => negb (Ascii.eqb c CR || Ascii.eqb c LF || Ascii.eqb c DQUOTE)) s.

(** ** The random source *)

(** The contract of [base::RandGenerator]: a value below [range]. That the
    value is uniform on this interval is the part of the contract that the
    properties below rest on without stating it. *)
Definition draws_in_range {Rand : Type} (RandGenerator : N -> Rand -> N * Rand) : Prop :=
  forall range rng, (0 < range)%N -> (fst (RandGenerator range rng) < range)%N.

(** The values of [n] successive calls of [RandGenerator range], and the
    state of the source after them. *)
Fixpoint rand_draws {Rand : Type} (RandGenerator : N -> Rand -> N * Rand)
    (range : N) (n : nat) (rng : Rand) : list N * Rand :=
  match n with
  | O => ([], rng)
  | S n' =>
      let (v, rng') := RandGenerator range rng in
      let (vs, rng'') := rand_draws RandGenerator range n' rng' in
      (v :: vs, rng'')
  end.

(** The characters that a list of drawn values selects in [kCharacters]. *)
Definition chars_of_draws (vs : list N) : string :=
  string_of_list_ascii (map (fun v => char_at kCharacters (Z.of_N v)) vs).

(** The alphabet of the specification: [0-9A-Za-z]. *)
Definition is_alnum (c : ascii) : bool :=
  let n := N_of_ascii c in
  ((48 <=? n) && (n <=? 57) || (65 <=? n) && (n <=? 90) || (97 <=? n) && (n <=? 122))%N.

(** A deterministic source for examples: a linear congruential generator
    reduced to the range. *)
Definition example_generator (range : N) (seed : N) : N * N :=
  ((seed / 65536) mod range, (seed * 1103515245 + 12345) mod 4294967296)%N.

(** * Further notions *)

(** ** Escaping *)

(** The number of characters of [s] that [EncodeMIMEField] escapes. *)
Fixpoint escaped_count (s : string) : nat :=
  match s with
  | EmptyString => O
  | String c rest => ((if is_escaped_char c then 1 else 0) + escaped_count rest)%nat
  end.

(** No character of [s] is one that [EncodeMIMEField] escapes. *)
Definition no_escaped_char (s : string) : bool :=
  all_chars (fun c => negb (is_escaped_char c)) s.

(** ** States *)

(** No key of the form data is a key of the attachments. *)
Definition keys_disjoint (this : HTTPMultipartBuilder) : bool :=
  forallb (fun kv => negb (M.mem (fst kv) (file_attachments_ this)))
          (M.elements (form_data_ this)).

(** Every stored attachment has an escaped file name and a content type
    made of the characters that [AssertSafeMIMEType] accepts. *)
Definition attachments_safe (this : HTTPMultipartBuilder) : bool :=
  forallb (fun ka => well_escaped (filename (snd ka))
                     && all_chars in_safe_set (content_type (snd ka)))
          (M.elements (file_attachments_ this)).

(** The stream that [GetBodyStream] returns. *)
Definition stream_of (this : HTTPMultipartBuilder) : option HTTPBodyStream :=
  match GetBodyStream this with
  | Ok (stream, _) => Some stream
  | Fatal => None
  end.

(** ** Decoding *)

(** The character that the two characters after a percent sign stand for. *)
Definition decode_escape (h l : ascii) : option ascii :=
  if Ascii.eqb h "0" && Ascii.eqb l "d" then Some CR
  else if Ascii.eqb h "0" && Ascii.eqb l "a" then Some LF
  else if Ascii.eqb h "2" && Ascii.eqb l "2" then Some DQUOTE
  else if Ascii.eqb h "2" && Ascii.eqb l "5" then Some PERCENT
  else None.

(** The decoding that the comment of [EncodeMIMEField] has in view when it
    escapes the percent sign: an escape sequence stands for its character,
    any other character for itself; a percent sign that starts no escape
    sequence, and a literal carriage return, line feed or double quote, are
    in no escaped string. *)
Fixpoint DecodeMIMEField (s : string) : option string :=
  match s with
  | EmptyString => Some EmptyString
  | String c rest =>
      if Ascii.eqb c PERCENT then
        match rest with
        | String h (String l rest') =>
            match decode_escape h l, DecodeMIMEField rest' with
            | Some x, Some r => Some (String x r)
            | _, _ => None
            end
        | _ => None
        end
      else if is_escaped_char c then None
      else match DecodeMIMEField rest with
           | Some r => Some (String c r)
           | None => None
           end
  end.

(** ** The boundary *)

(** A character of the boundary: a letter, a digit or a hyphen. *)
Definition boundary_char (c : ascii) : bool := is_alnum c || Ascii.eqb c "-".

(** ** The layout of the body as it is emitted *)

(** The segment of a form field: the boundary and the escaped key go
    through [%s] and stop at their first NUL; the value is appended whole. *)
Definition emitted_field_segment (b key value : string) : string :=
  "--" ++ c_str b ++ crlf
    ++ disposition_name_line (EncodeMIMEField (c_str key))
    ++ crlf ++ crlf ++ value ++ crlf.

(** The header segment of an attachment: the boundary, the escaped key, the
    stored file name and the stored content type all go through [%s]. *)
Definition emitted_attachment_header (b key stored_filename ctype : string) : string :=
  "--" ++ c_str b ++ crlf
    ++ disposition_file_line (EncodeMIMEField (c_str key)) (c_str stored_filename)
    ++ crlf ++ "Content-Type: " ++ c_str ctype ++ crlf ++ crlf.

Definition emitted_layout (this : HTTPMultipartBuilder) : list HTTPBodyStream :=
  (map (fun kv => StringHTTPBodyStream
                    (emitted_field_segment (boundary_ this) (fst kv) (snd kv)))
       (M.elements (form_data_ this))
   ++ flat_map (fun ka =>
                  [StringHTTPBodyStream
                     (emitted_attachment_header (boundary_ this) (fst ka)
                        (filename (snd ka)) (content_type (snd ka)));
                   FileHTTPBodyStream (path (snd ka));
                   StringHTTPBodyStream crlf])
               (M.elements (file_attachments_ this))
   ++ [StringHTTPBodyStream (closing_segment (boundary_ this))])%list.

(** The bytes of the emitted body when the file at [p] holds [content p]. *)
Definition emitted_bytes (content : FilePath -> string) (this : HTTPMultipartBuilder)
    : string :=
  concat_strings
    (map (fun kv => emitted_field_segment (boundary_ this) (fst kv) (snd kv))
         (M.elements (form_data_ this)))
  ++ concat_strings
       (map (fun ka =>
               emitted_attachment_header (boundary_ this) (fst ka)
                 (filename (snd ka)) (content_type (snd ka))
               ++ content (path (snd ka)) ++ crlf)
            (M.elements (file_attachments_ this)))
  ++ closing_segment (boundary_ this).

(** ** Sequences of calls *)

Inductive Operation : Type :=
| OpSetFormData (key value : string)
| OpSetFileAttachment (key upload_file_name : string) (path : FilePath)
                      (content_type : string).

Definition perform (op : Operation) : Method unit :=
  match op with
  | OpSetFormData key value => SetFormData key value
  | OpSetFileAttachment key upload_file_name path content_type =>
      SetFileAttachment key upload_file_name path content_type
  end.

Fixpoint perform_all (ops : list Operation) : Method unit :=
  match ops with
  | [] => ret tt
  | op :: ops' => perform op ;; perform_all ops'
  end.

(** The key of the call, and its upload name if it has one, have no NUL. *)
Definition operation_nul_free (op : Operation) : bool :=
  match op with
  | OpSetFormData key _ => nul_free key
  | OpSetFileAttachment key upload_file_name _ _ =>
      nul_free key && nul_free upload_file_name
  end.

(** ** The parts of one name *)

(** No key of the form data and no key of the attachments has a NUL. *)
Definition keys_nul_free (this : HTTPMultipartBuilder) : bool :=
  forallb (fun kv => nul_free (fst kv)) (M.elements (form_data_ this))
  && forallb (fun ka => nul_free (fst ka)) (M.elements (file_attachments_ this)).

(** The start of a part whose name is [key], as it is emitted for a key
    without NUL: the delimiter line and the [Content-Disposition] header up
    to the quote that closes the name. *)
Definition part_name_prefix (b key : string) : string :=
  "--" ++ c_str b ++ crlf ++ disposition_name_line (EncodeMIMEField key).

Definition is_part_named (b key : string) (s : HTTPBodyStream) : bool :=
  match s with
  | StringHTTPBodyStream t => String.prefix (part_name_prefix b key) t
  | _ => false
  end.

(** ** Occurrences of a character *)

Fixpoint count_char (c : ascii) (s : string) : nat :=
  match s with
  | EmptyString => O
  | String x rest => ((if Ascii.eqb x c then 1 else 0) + count_char c rest)%nat
  end.

(** * Properties *)

(** ** Strings and lists *)

Lemma append_nil_r (s : string) : s ++ EmptyString = s.
Proof. induction s as [|c s IH]; simpl; [reflexivity | now rewrite IH]. Qed.

Lemma append_assoc (a b c : string) : (a ++ b) ++ c = a ++ (b ++ c).
Proof. induction a as [|x a IH]; simpl; [reflexivity | now rewrite IH]. Qed.

Lemma c_str_nul_free (s : string) : nul_free s = true -> c_str s = s.
Proof.
  induction s as [|c s IH]; simpl; [reflexivity|].
  destruct (Ascii.eqb c NUL); simpl; [discriminate|].
  intros H. now rewrite IH.
Qed.

Lemma nul_free_c_str (s : string) : nul_free (c_str s) = true.
Proof.
  induction s as [|c s IH]; simpl; [reflexivity|].
  destruct (Ascii.eqb c NUL) eqn:E; simpl; [reflexivity|].
  now rewrite E, IH.
Qed.

Lemma prefix_append (a b : string) : String.prefix a (a ++ b) = true.
Proof.
  induction a as [|c a IH]; simpl; [now destruct b|].
  destruct (Ascii.ascii_dec c c); [exact IH | congruence].
Qed.

Lemma count_app {A : Type} (p : A -> bool) (l1 l2 : list A) :
  count p (l1 ++ l2) = (count p l1 + count p l2)%nat.
Proof. unfold count. now rewrite filter_app, length_app. Qed.

Lemma fold_left_app_flat_map {A B : Type} (f : A -> list B) (l : list A) (init : list B) :
  fold_left (fun acc x => (acc ++ f x)%list) l init = (init ++ flat_map f l)%list.
Proof.
  revert init. induction l as [|x l IH]; intros init; simpl.
  - now rewrite app_nil_r.
  - rewrite IH, <- app_assoc. reflexivity.
Qed.

Lemma flat_map_singleton {A B : Type} (g : A -> B) (l : list A) :
  flat_map (fun x => [g x]) l = map g l.
Proof. induction l as [|x l IH]; simpl; [reflexivity | now rewrite IH]. Qed.

(** ** The calls of StringPrintf *)

Lemma printf_escape (n : Z) :
  StringPrintf "%%%02x" [arg_int n] = String PERCENT (format_02x n).
Proof. simpl. now rewrite append_nil_r. Qed.

Lemma GetFormDataBoundary_eq (b name : string) :
  GetFormDataBoundary b name =
  "--" ++ c_str b ++ kCRLF ++ "Content-Disposition: form-data; name="
       ++ str1 DQUOTE ++ c_str (EncodeMIMEField name) ++ str1 DQUOTE.
Proof. reflexivity. Qed.

Lemma printf_filename (f : string) :
  StringPrintf ("; filename=" ++ str1 DQUOTE ++ "%s" ++ str1 DQUOTE ++ "%s")
               [arg_str f; arg_str kCRLF]
  = "; filename=" ++ str1 DQUOTE ++ c_str f ++ str1 DQUOTE ++ kCRLF.
Proof. reflexivity. Qed.

Lemma printf_content_type (t : string) :
  StringPrintf "Content-Type: %s%s" [arg_str t; arg_str kBoundaryCRLF]
  = "Content-Type: " ++ c_str t ++ kBoundaryCRLF.
Proof. reflexivity. Qed.

(** ** EncodeMIMEField *)

Lemma is_escaped_char_true (c : ascii) :
  is_escaped_char c = true -> c = CR \/ c = LF \/ c = DQUOTE \/ c = PERCENT.
Proof.
  unfold is_escaped_char. rewrite !orb_true_iff, !Ascii.eqb_eq. tauto.
Qed.

Lemma EncodeMIMEField_cons (c : ascii) (rest : string) :
  EncodeMIMEField (String c rest) =
  (if is_escaped_char c
   then String PERCENT (format_02x (int_of_char c))
   else str1 c) ++ EncodeMIMEField rest.
Proof. cbn [EncodeMIMEField]. now rewrite printf_escape. Qed.

Lemma EncodeMIMEField_escaped (c : ascii) (rest : string) :
  is_escaped_char c = true ->
  (c = CR /\ EncodeMIMEField (String c rest) = "%0d" ++ EncodeMIMEField rest) \/
  (c = LF /\ EncodeMIMEField (String c rest) = "%0a" ++ EncodeMIMEField rest) \/
  (c = DQUOTE /\ EncodeMIMEField (String c rest) = "%22" ++ EncodeMIMEField rest) \/
  (c = PERCENT /\ EncodeMIMEField (String c rest) = "%25" ++ EncodeMIMEField rest).
Proof.
  intros H. destruct (is_escaped_char_true c H) as [->|[->|[->| ->]]];
    [left | right; left | right; right; left | right; right; right];
    (split; [reflexivity | now rewrite EncodeMIMEField_cons]).
Qed.

Lemma EncodeMIMEField_plain (c : ascii) (rest : string) :
  is_escaped_char c = false ->
  EncodeMIMEField (String c rest) = String c (EncodeMIMEField rest).
Proof. intros H. rewrite EncodeMIMEField_cons, H. reflexivity. Qed.

Lemma EncodeMIMEField_special (rest : string) :
  EncodeMIMEField (String CR rest) = "%0d" ++ EncodeMIMEField rest /\
  EncodeMIMEField (String LF rest) = "%0a" ++ EncodeMIMEField rest /\
  EncodeMIMEField (String DQUOTE rest) = "%22" ++ EncodeMIMEField rest /\
  EncodeMIMEField (String PERCENT rest) = "%25" ++ EncodeMIMEField rest.
Proof. repeat split; now rewrite EncodeMIMEField_cons. Qed.

Lemma EncodeMIMEField_cases (c : ascii) (s : string) :
  (is_escaped_char c = false /\ EncodeMIMEField (String c s) = String c (EncodeMIMEField s))
  \/ (c = CR /\ EncodeMIMEField (String c s) = "%0d" ++ EncodeMIMEField s)
  \/ (c = LF /\ EncodeMIMEField (String c s) = "%0a" ++ EncodeMIMEField s)
  \/ (c = DQUOTE /\ EncodeMIMEField (String c s) = "%22" ++ EncodeMIMEField s)
  \/ (c = PERCENT /\ EncodeMIMEField (String c s) = "%25" ++ EncodeMIMEField s).
Proof.
  destruct (is_escaped_char c) eqn:E.
  - right. now apply EncodeMIMEField_escaped.
  - left. split; [reflexivity | now apply EncodeMIMEField_plain].
Qed.

Lemma EncodeMIMEField_app (a b : string) :
  EncodeMIMEField (a ++ b) = EncodeMIMEField a ++ EncodeMIMEField b.
Proof.
  induction a as [|c a IH]; [reflexivity|].
  change (String c a ++ b) with (String c (a ++ b)).
  rewrite !EncodeMIMEField_cons, IH, append_assoc. reflexivity.
Qed.

(** Cutting at the first NUL commutes with the escaping: NUL is copied, and
    no escape sequence contains it. *)
Lemma c_str_EncodeMIMEField (s : string) :
  c_str (EncodeMIMEField s) = EncodeMIMEField (c_str s).
Proof.
  induction s as [|c s IH]; [reflexivity|].
  destruct (is_escaped_char c) eqn:E.
  - destruct (EncodeMIMEField_special s) as (Hcr & Hlf & Hdq & Hpc).
    destruct (EncodeMIMEField_special (c_str s)) as (Hcr' & Hlf' & Hdq' & Hpc').
    destruct (is_escaped_char_true c E) as [->|[->|[->| ->]]].
    + rewrite Hcr. change (c_str (String CR s)) with (String CR (c_str s)).
      rewrite Hcr'. simpl. now rewrite IH.
    + rewrite Hlf. change (c_str (String LF s)) with (String LF (c_str s)).
      rewrite Hlf'. simpl. now rewrite IH.
    + rewrite Hdq. change (c_str (String DQUOTE s)) with (String DQUOTE (c_str s)).
      rewrite Hdq'. simpl. now rewrite IH.
    + rewrite Hpc. change (c_str (String PERCENT s)) with (String PERCENT (c_str s)).
      rewrite Hpc'. simpl. now rewrite IH.
  - rewrite (EncodeMIMEField_plain c s E). cbn [c_str].
    destruct (Ascii.eqb c NUL) eqn:N; [reflexivity|].
    rewrite (EncodeMIMEField_plain c _ E), IH. reflexivity.
Qed.

Lemma nul_free_EncodeMIMEField (s : string) :
  nul_free s = true -> nul_free (EncodeMIMEField s) = true.
Proof.
  intros H. rewrite <- (c_str_nul_free s H), <- c_str_EncodeMIMEField.
  apply nul_free_c_str.
Qed.

Lemma percent_encode_refines (s : string) :
  EncodeMIMEField s = percent_encode s.
Proof.
  induction s as [|c s IH]; [reflexivity|].
  rewrite EncodeMIMEField_cons, IH. cbn [percent_encode]. f_equal.
  unfold percent_encode_char. fold (is_escaped_char c).
  destruct (is_escaped_char c) eqn:E; [|reflexivity].
  destruct (is_escaped_char_true c E) as [->|[->|[->| ->]]]; reflexivity.
Qed.

Lemma well_escaped_EncodeMIMEField (s : string) :
  well_escaped (EncodeMIMEField s) = true.
Proof.
  induction s as [|c s IH]; [reflexivity|].
  destruct (is_escaped_char c) eqn:E.
  - destruct (EncodeMIMEField_special s) as (Hcr & Hlf & Hdq & Hpc).
    destruct (is_escaped_char_true c E) as [->|[->|[->| ->]]];
      [rewrite Hcr | rewrite Hlf | rewrite Hdq | rewrite Hpc]; simpl; exact IH.
  - rewrite (EncodeMIMEField_plain c s E). cbn [well_escaped].
    unfold is_escaped_char in E. rewrite !orb_false_iff in E.
    destruct E as (((-> & ->) & ->) & ->). simpl. exact IH.
Qed.

Lemma well_escaped_no_literal (s : string) :
  well_escaped s = true ->
  forall c, In c (list_ascii_of_string s) -> c <> CR /\ c <> LF /\ c <> DQUOTE.
Proof.
  assert (G : forall n s, (String.length s < n)%nat -> well_escaped s = true ->
              forall c, In c (list_ascii_of_string s) ->
                        c <> CR /\ c <> LF /\ c <> DQUOTE).
  { clear s. induction n as [|n IH]; intros s Hlen Hw c Hin; [lia|].
    destruct s as [|x s]; [destruct Hin|].
    cbn [well_escaped] in Hw. destruct (Ascii.eqb x PERCENT) eqn:P.
    - apply Ascii.eqb_eq in P. subst x.
      destruct s as [|h [|l s']]; try discriminate.
      apply andb_true_iff in Hw. destruct Hw as [Hc Hw].
      simpl in Hin. destruct Hin as [<-|[<-|[<-|Hin]]].
      + repeat split; discriminate.
      + unfold is_escape_code in Hc. rewrite !orb_true_iff, !andb_true_iff,
          !Ascii.eqb_eq in Hc.
        destruct Hc as [[[[-> _]|[-> _]]|[-> _]]|[-> _]]; repeat split; discriminate.
      + unfold is_escape_code in Hc. rewrite !orb_true_iff, !andb_true_iff,
          !Ascii.eqb_eq in Hc.
        destruct Hc as [[[[_ ->]|[_ ->]]|[_ ->]]|[_ ->]]; repeat split; discriminate.
      + apply (IH s'); [simpl in Hlen; lia | assumption | assumption].
    - rewrite !andb_true_iff, !negb_true_iff in Hw.
      destruct Hw as (((Hcr & Hlf) & Hdq) & Hw).
      simpl in Hin. destruct Hin as [<-|Hin].
      + rewrite Ascii.eqb_neq in Hcr, Hlf, Hdq. tauto.
      + apply (IH s); [simpl in Hlen; lia | assumption | assumption]. }
  intros Hw. apply (G (S (String.length s)) s); [lia | assumption].
Qed.

Lemma no_literal_EncodeMIMEField (s : string) :
  no_literal_break_or_quote (EncodeMIMEField s) = true.
Proof.
  unfold no_literal_break_or_quote.
  induction s as [|c s IH]; [reflexivity|].
  destruct (EncodeMIMEField_cases c s)
    as [[N E]|[[-> E]|[[-> E]|[[-> E]|[-> E]]]]]; rewrite E; simpl; try exact IH.
  unfold is_escaped_char in N. rewrite !orb_false_iff in N.
  destruct N as (((-> & ->) & ->) & _). exact IH.
Qed.

(** ** AssertSafeMIMEType *)

Lemma safe_mime_char_spec (c : ascii) : safe_mime_char c = in_safe_set c.
Proof. destruct c as [[] [] [] [] [] [] [] []]; reflexivity. Qed.

Lemma AssertSafeMIMEType_spec (s : string) :
  AssertSafeMIMEType s = if all_chars in_safe_set s then Ok tt else Fatal.
Proof.
  induction s as [|c s IH]; [reflexivity|].
  cbn [AssertSafeMIMEType all_chars]. rewrite <- safe_mime_char_spec.
  unfold CHECK. destruct (safe_mime_char c); [exact IH | reflexivity].
Qed.

Lemma all_chars_safe_nul_free (s : string) :
  all_chars in_safe_set s = true -> nul_free s = true.
Proof.
  induction s as [|c s IH]; [reflexivity|].
  cbn [all_chars nul_free]. rewrite andb_true_iff. intros [Hc Hs].
  rewrite (IH Hs), andb_true_r.
  destruct (Ascii.eqb_spec c NUL) as [->|]; [discriminate Hc | reflexivity].
Qed.

(** ** The maps *)

Lemma find_erase_key_same {V : Type} (key : string) (m : M.t V) :
  M.find key (erase_key key m) = None.
Proof.
  unfold erase_key. destruct (M.find key m) eqn:E; [|exact E].
  now apply F.remove_eq_o.
Qed.

Lemma find_erase_key_other {V : Type} (key k : string) (m : M.t V) :
  k <> key -> M.find k (erase_key key m) = M.find k m.
Proof.
  intros N. unfold erase_key. destruct (M.find key m); [|reflexivity].
  apply F.remove_neq_o. congruence.
Qed.

Lemma find_In_elements {V : Type} (k : string) (v : V) (m : M.t V) :
  M.find k m = Some v -> In (k, v) (M.elements m).
Proof.
  intros H. apply M.find_2, M.elements_1 in H.
  apply InA_alt in H. destruct H as ([k' v'] & [Hk Hv] & Hin).
  simpl in Hk, Hv. now subst.
Qed.

Lemma In_elements_find {V : Type} (k : string) (v : V) (m : M.t V) :
  In (k, v) (M.elements m) -> M.find k m = Some v.
Proof.
  intros H. apply M.find_1, M.elements_2, InA_alt.
  exists (k, v). split; [split; reflexivity | exact H].
Qed.

Lemma elements_Empty {V : Type} (m : M.t V) : M.Empty m -> M.elements m = [].
Proof.
  intros H. destruct (M.elements m) as [|[k v] l] eqn:E; [reflexivity|].
  exfalso. apply (H k v). apply M.elements_2. rewrite E.
  constructor. split; reflexivity.
Qed.

Lemma In_elements_erase_key {V : Type} (key : string) (kv : string * V) (m : M.t V) :
  In kv (M.elements (erase_key key m)) -> In kv (M.elements m).
Proof.
  destruct kv as [k v]. intros H. apply In_elements_find in H.
  apply find_In_elements. destruct (string_dec k key) as [->|N].
  - rewrite find_erase_key_same in H. discriminate.
  - now rewrite find_erase_key_other in H.
Qed.

Lemma In_elements_add {V : Type} (key : string) (x : V) (kv : string * V) (m : M.t V) :
  In kv (M.elements (M.add key x m)) -> kv = (key, x) \/ In kv (M.elements m).
Proof.
  destruct kv as [k v]. intros H. apply In_elements_find in H.
  destruct (string_dec key k) as [->|N].
  - rewrite F.add_eq_o in H by reflexivity. injection H as <-. now left.
  - rewrite F.add_neq_o in H by assumption. right. now apply find_In_elements.
Qed.

(** ** The methods as functions of the state *)

Lemma EraseKey_eq (key : string) (this : HTTPMultipartBuilder) :
  EraseKey key this =
  Ok (tt, {| boundary_ := boundary_ this;
             form_data_ := erase_key key (form_data_ this);
             file_attachments_ := erase_key key (file_attachments_ this) |}).
Proof.
  destruct this as [b fd fa]. unfold EraseKey, erase_key, bind, get_this. simpl.
  destruct (M.find key fd); simpl; destruct (M.find key fa); reflexivity.
Qed.

Lemma SetFormData_eq (key value : string) (this : HTTPMultipartBuilder) :
  SetFormData key value this =
  Ok (tt, {| boundary_ := boundary_ this;
             form_data_ := M.add key value (erase_key key (form_data_ this));
             file_attachments_ := erase_key key (file_attachments_ this) |}).
Proof. unfold SetFormData, bind. rewrite EraseKey_eq. reflexivity. Qed.

Lemma SetFileAttachment_eq (key upload_file_name : string) (path : FilePath)
    (content_type : string) (this : HTTPMultipartBuilder) :
  SetFileAttachment key upload_file_name path content_type this =
  match content_type with
  | EmptyString =>
      Ok (tt, attached key upload_file_name path "application/octet-stream" this)
  | _ =>
      match AssertSafeMIMEType content_type with
      | Ok _ => Ok (tt, attached key upload_file_name path content_type this)
      | Fatal => Fatal
      end
  end.
Proof.
  unfold SetFileAttachment, bind. rewrite EraseKey_eq.
  destruct content_type as [|c ct]; [reflexivity|].
  unfold call. destruct (AssertSafeMIMEType (String c ct)) as [[]|]; reflexivity.
Qed.

Lemma GetBodyStream_eq (this : HTTPMultipartBuilder) :
  GetBodyStream this = Ok (CompositeHTTPBodyStream (body_streams this), this).
Proof.
  unfold GetBodyStream, bind, get_this, ret, body_streams.
  rewrite (fold_left_app_flat_map (fun pair => [field_stream (boundary this) pair])).
  rewrite fold_left_app_flat_map, flat_map_singleton, <- app_assoc. reflexivity.
Qed.

(** ** Reading a composite stream *)

Lemma ReadAll_Composite (fs : FileSystem) (l : list HTTPBodyStream) :
  ReadAll fs (CompositeHTTPBodyStream l) = read_list fs l.
Proof.
  induction l as [|x l IH]; [reflexivity|].
  cbn [read_list]. rewrite <- IH. reflexivity.
Qed.

Lemma read_list_app (fs : FileSystem) (l1 l2 : list HTTPBodyStream) (a b : string) :
  read_list fs l1 = Some a -> read_list fs l2 = Some b ->
  read_list fs (l1 ++ l2) = Some (a ++ b).
Proof.
  revert a. induction l1 as [|x l1 IH]; intros a H1 H2; simpl in *.
  - injection H1 as <-. exact H2.
  - destruct (ReadAll fs x) as [bytes|]; [|discriminate].
    destruct (read_list fs l1) as [more|]; [|discriminate].
    injection H1 as <-. rewrite (IH more eq_refl H2). now rewrite append_assoc.
Qed.

Lemma read_spec_layout (content : FilePath -> string) (this : HTTPMultipartBuilder) :
  read_list (fun p => Some (content p)) (spec_layout this)
  = Some (spec_bytes content this).
Proof.
  unfold spec_layout, spec_bytes.
  apply read_list_app; [|apply read_list_app].
  - induction (M.elements (form_data_ this)) as [|kv l IH]; [reflexivity|].
    simpl. now rewrite IH.
  - induction (M.elements (file_attachments_ this)) as [|ka l IH]; [reflexivity|].
    simpl. rewrite IH. now rewrite !append_assoc.
  - simpl. now rewrite append_nil_r.
Qed.

(** ** C1: SetFileAttachment and the key *)

(** C1. The claim is that [SetFileAttachment(k, ...)] leaves [k] denoting one
    entry only, the attachment. The method erases [upload_file_name], not
    [key]: on a builder that holds the form field [k], attaching a file under
    [k] with the upload name [a.txt] keeps the field, so that [k] denotes a
    field and an attachment at once, and the body has two parts named [k]. *)
Theorem C1_SetFileAttachment_keeps_field_under_key :
  forall (b : string) (p : FilePath),
  exists this1 this2 streams,
    SetFormData "k" "v" (empty_builder b) = Ok (tt, this1)
    /\ SetFileAttachment "k" "a.txt" p EmptyString this1 = Ok (tt, this2)
    /\ M.find "k" (form_data_ this2) = Some "v"
    /\ M.find "k" (file_attachments_ this2)
       = Some {| filename := "a.txt"; path := p;
                 content_type := "application/octet-stream" |}
    /\ GetBodyStream this2 = Ok (CompositeHTTPBodyStream streams, this2)
    /\ In (field_stream b ("k", "v")) streams
    /\ In (FileHTTPBodyStream p) streams.
Proof.
  intros b p. eexists. eexists. eexists.
  split; [apply SetFormData_eq|].
  split; [rewrite SetFileAttachment_eq; reflexivity|].
  split; [reflexivity|]. split; [reflexivity|].
  split; [apply GetBodyStream_eq|].
  split; [left; reflexivity | right; right; left; reflexivity].
Qed.

(** The other side of the same erasure: an entry stored under the upload
    name is removed although its key was not set. *)
Lemma SetFileAttachment_erases_upload_file_name :
  forall (key upload_file_name : string) (p : FilePath) (this : HTTPMultipartBuilder),
    key <> upload_file_name ->
    exists this',
      SetFileAttachment key upload_file_name p EmptyString this = Ok (tt, this')
      /\ M.find upload_file_name (form_data_ this') = None
      /\ M.find upload_file_name (file_attachments_ this') = None.
Proof.
  intros key u p this N. eexists.
  split; [rewrite SetFileAttachment_eq; reflexivity|].
  cbn [attached form_data_ file_attachments_]. split.
  - apply find_erase_key_same.
  - rewrite F.add_neq_o by congruence. apply find_erase_key_same.
Qed.

(** ** C2: the layout of the body *)

Lemma field_stream_nul_free (b : string) (kv : string * string) :
  nul_free b = true -> nul_free (fst kv) = true ->
  field_stream b kv = spec_field_part b kv.
Proof.
  intros Hb Hk. unfold field_stream, spec_field_part, form_field_segment.
  rewrite GetFormDataBoundary_eq, c_str_EncodeMIMEField.
  rewrite (c_str_nul_free _ Hb), (c_str_nul_free _ Hk).
  f_equal. unfold kBoundaryCRLF. fold crlf. change kCRLF with crlf.
  change (str1 DQUOTE) with quote.
  now rewrite !append_assoc.
Qed.

Lemma attachment_streams_nul_free (b : string) (ka : string * FileAttachment) :
  nul_free b = true -> nul_free (fst ka) = true ->
  nul_free (filename (snd ka)) = true -> nul_free (content_type (snd ka)) = true ->
  attachment_streams b ka = spec_attachment_part b ka.
Proof.
  intros Hb Hk Hf Ht.
  unfold attachment_streams, spec_attachment_part, attachment_header_segment.
  rewrite GetFormDataBoundary_eq, c_str_EncodeMIMEField, printf_filename,
    printf_content_type.
  rewrite (c_str_nul_free _ Hb), (c_str_nul_free _ Hk), (c_str_nul_free _ Hf),
    (c_str_nul_free _ Ht).
  unfold kBoundaryCRLF. change kCRLF with crlf. change (str1 DQUOTE) with quote.
  do 2 f_equal. now rewrite !append_assoc.
Qed.

Lemma body_streams_nul_free (this : HTTPMultipartBuilder) :
  nul_free_state this = true -> body_streams this = spec_layout this.
Proof.
  unfold nul_free_state, body_streams, spec_layout, boundary.
  rewrite !andb_true_iff. intros [[Hb Hfd] Hfa].
  rewrite forallb_forall in Hfd, Hfa.
  f_equal; [|f_equal].
  - apply map_ext_in. intros kv Hin. apply field_stream_nul_free; auto.
  - induction (M.elements (file_attachments_ this)) as [|ka l IH]; [reflexivity|].
    cbn [flat_map]. rewrite IH by (intros x Hx; apply Hfa; now right).
    specialize (Hfa ka (or_introl eq_refl)).
    rewrite !andb_true_iff in Hfa. destruct Hfa as [[Hk Hf] Ht].
    now rewrite attachment_streams_nul_free.
Qed.

(** [SetFormData] with a key that has no NUL keeps the state free of NUL. *)
Lemma nul_free_state_SetFormData (key value : string) (this : HTTPMultipartBuilder) :
  nul_free_state this = true -> nul_free key = true ->
  nul_free_state (state_after (SetFormData key value) this) = true.
Proof.
  unfold nul_free_state, state_after. rewrite SetFormData_eq.
  cbn [boundary_ form_data_ file_attachments_].
  rewrite !andb_true_iff, !forallb_forall. intros [[Hb Hfd] Hfa] Hk.
  split; [split; [exact Hb|]|].
  - intros kv Hin. apply In_elements_add in Hin. destruct Hin as [->|Hin].
    + exact Hk.
    + apply Hfd. now apply In_elements_erase_key in Hin.
  - intros ka Hin. apply Hfa. now apply In_elements_erase_key in Hin.
Qed.

(** [SetFileAttachment] with a key and an upload name that have no NUL keeps
    the state free of NUL: the content type that it stores is the default or
    has passed [AssertSafeMIMEType]. *)
Lemma nul_free_state_SetFileAttachment
    (key upload_file_name : string) (p : FilePath) (ctype : string)
    (this : HTTPMultipartBuilder) :
  nul_free_state this = true -> nul_free key = true ->
  nul_free upload_file_name = true ->
  nul_free_state (state_after (SetFileAttachment key upload_file_name p ctype) this)
  = true.
Proof.
  intros H Hk Hu.
  assert (G : forall stored, nul_free stored = true ->
                nul_free_state (attached key upload_file_name p stored this) = true).
  { intros stored Hs. revert H. unfold nul_free_state.
    cbn [attached boundary_ form_data_ file_attachments_].
    rewrite !andb_true_iff, !forallb_forall. intros [[Hb Hfd] Hfa].
    split; [split; [exact Hb|]|].
    - intros kv Hin. apply Hfd. now apply In_elements_erase_key in Hin.
    - intros ka Hin. apply In_elements_add in Hin. destruct Hin as [->|Hin].
      + cbn [fst snd filename content_type].
        now rewrite Hk, Hs, (nul_free_EncodeMIMEField _ Hu).
      + apply Hfa. now apply In_elements_erase_key in Hin. }
  unfold state_after. rewrite SetFileAttachment_eq.
  destruct ctype as [|c ct]; [now apply G|].
  rewrite AssertSafeMIMEType_spec.
  destruct (all_chars in_safe_set (String c ct)) eqn:S; [|exact H].
  apply G. now apply all_chars_safe_nul_free.
Qed.

(** C2, as amended. For every builder state whose boundary, keys, stored
    file names and stored content types contain no NUL character, the body
    is: for each form field in the order of the collection the segment
    [--{boundary}CRLF Content-Disposition: form-data; name="{escaped-key}"
    CRLF CRLF {value} CRLF]; then for each attachment in the order of the
    collection the header segment with the escaped key, the stored file name
    and the content type, the bytes of the file and a CRLF; then the closing
    segment [--{boundary}-- CRLF]. *)
Theorem C2_body_layout :
  forall (this : HTTPMultipartBuilder),
    nul_free_state this = true -> has_spec_layout this.
Proof.
  intros this H. eexists. split; [apply GetBodyStream_eq|].
  rewrite (body_streams_nul_free this H). split; [reflexivity|].
  intros content. rewrite ReadAll_Composite. apply read_spec_layout.
Qed.

(** C2, witness: the field [name = value] and the attachment [file] on a
    builder with the boundary [B]. *)
Lemma C2_body_layout_witness :
  has_spec_layout
    (state_after (SetFormData "name" "value" ;;
                  SetFileAttachment "file" "a.txt" "/tmp/abc" EmptyString)
                 (empty_builder "B")).
Proof. apply C2_body_layout. vm_compute. reflexivity. Defined.

(** C2, as stated, fails where a key holds a NUL character: the [%s] of the
    header stops at it, and the name that is emitted is the escaped key cut
    there. After [SetFormData("a\0b", "v")] neither the segments nor the bytes
    of the body are those of the layout. *)
Lemma C2_counterexample_nul_in_key :
  let this :=
    state_after (SetFormData (String "a" (String NUL "b")) "v") (empty_builder "B") in
  ~ has_spec_layout this
  /\ GetBodyStream this
     = Ok (CompositeHTTPBodyStream
             [StringHTTPBodyStream
                ("--B" ++ crlf ++ "Content-Disposition: form-data; name="
                       ++ quote ++ "a" ++ quote ++ crlf ++ crlf ++ "v" ++ crlf);
              StringHTTPBodyStream ("--B--" ++ crlf)], this)
  /\ form_field_segment "B" (String "a" (String NUL "b")) "v"
     = "--B" ++ crlf ++ "Content-Disposition: form-data; name="
             ++ quote ++ String "a" (String NUL "b") ++ quote
             ++ crlf ++ crlf ++ "v" ++ crlf.
Proof.
  intros this. split; [|split].
  - intros (stream & Hrun & Hseg & _). rewrite GetBodyStream_eq in Hrun.
    injection Hrun as Hrun. rewrite <- Hrun in Hseg.
    injection Hseg as Hseg. vm_compute in Hseg. discriminate Hseg.
  - rewrite GetBodyStream_eq. reflexivity.
  - reflexivity.
Qed.

(** ** C3: the escaping *)

(** C3. [EncodeMIMEField] replaces carriage return, line feed, double quote
    and percent by [%0d], [%0a], [%22] and [%25] and copies every other byte;
    its result has no literal carriage return, line feed or double quote and
    no percent sign that does not start one of these four codes; and the
    [Content-Disposition] line of every emitted part is built from the
    escaped name and, for an attachment, the escaped file name, between
    quotes. *)
Theorem C3_EncodeMIMEField_escapes :
  (forall s, EncodeMIMEField s = percent_encode s)
  /\ (percent_encode_char CR = "%0d" /\ percent_encode_char LF = "%0a"
      /\ percent_encode_char DQUOTE = "%22" /\ percent_encode_char PERCENT = "%25")
  /\ (forall s, well_escaped (EncodeMIMEField s) = true
                /\ no_literal_break_or_quote (EncodeMIMEField s) = true)
  /\ (forall b key value,
        exists t,
          field_stream b (key, value)
          = StringHTTPBodyStream
              ("--" ++ c_str b ++ crlf ++ disposition_name_line t
                    ++ crlf ++ crlf ++ value ++ crlf)
          /\ t = EncodeMIMEField (c_str key)
          /\ well_escaped t = true /\ no_literal_break_or_quote t = true)
  /\ (forall this key upload_file_name p ctype,
        match SetFileAttachment key upload_file_name p ctype this with
        | Fatal => True
        | Ok (_, this') =>
            exists a t f,
              M.find key (file_attachments_ this') = Some a
              /\ attachment_streams (boundary_ this') (key, a)
                 = [StringHTTPBodyStream
                      ("--" ++ c_str (boundary_ this') ++ crlf
                            ++ disposition_file_line t f ++ crlf
                            ++ "Content-Type: " ++ c_str (content_type a)
                            ++ crlf ++ crlf);
                    FileHTTPBodyStream p;
                    StringHTTPBodyStream crlf]
              /\ t = EncodeMIMEField (c_str key)
              /\ f = EncodeMIMEField (c_str upload_file_name)
              /\ well_escaped t = true /\ no_literal_break_or_quote t = true
              /\ well_escaped f = true /\ no_literal_break_or_quote f = true
        end).
Proof.
  split; [exact percent_encode_refines|].
  split; [repeat split; reflexivity|].
  split; [intros s; split;
          [apply well_escaped_EncodeMIMEField | apply no_literal_EncodeMIMEField]|].
  split.
  - intros b key value. eexists. split; [|split; [reflexivity|split]].
    + unfold field_stream, disposition_name_line. cbn [fst snd].
      rewrite GetFormDataBoundary_eq, c_str_EncodeMIMEField.
      unfold kBoundaryCRLF. change kCRLF with crlf. change (str1 DQUOTE) with quote.
      now rewrite !append_assoc.
    + apply well_escaped_EncodeMIMEField.
    + apply no_literal_EncodeMIMEField.
  - intros this key u p ctype. rewrite SetFileAttachment_eq.
    assert (G : forall stored,
      exists a t f,
        M.find key (file_attachments_ (attached key u p stored this)) = Some a
        /\ attachment_streams (boundary_ (attached key u p stored this)) (key, a)
           = [StringHTTPBodyStream
                ("--" ++ c_str (boundary_ (attached key u p stored this)) ++ crlf
                      ++ disposition_file_line t f ++ crlf
                      ++ "Content-Type: " ++ c_str (content_type a)
                      ++ crlf ++ crlf);
              FileHTTPBodyStream p;
              StringHTTPBodyStream crlf]
        /\ t = EncodeMIMEField (c_str key)
        /\ f = EncodeMIMEField (c_str u)
        /\ well_escaped t = true /\ no_literal_break_or_quote t = true
        /\ well_escaped f = true /\ no_literal_break_or_quote f = true).
    { intros stored. eexists. eexists. eexists.
      split; [cbn [attached file_attachments_]; now rewrite F.add_eq_o|].
      split; [|split; [reflexivity|split; [reflexivity|]]].
      - unfold attachment_streams, disposition_file_line, disposition_name_line.
        cbn [fst snd filename path content_type].
        rewrite GetFormDataBoundary_eq, !c_str_EncodeMIMEField, printf_filename,
          printf_content_type, c_str_EncodeMIMEField.
        unfold kBoundaryCRLF. change kCRLF with crlf. change (str1 DQUOTE) with quote.
        do 2 f_equal. now rewrite !append_assoc.
      - repeat split; first [apply well_escaped_EncodeMIMEField
                            | apply no_literal_EncodeMIMEField]. }
    destruct ctype as [|c ct]; [apply G|].
    destruct (AssertSafeMIMEType (String c ct)) as [[]|]; [apply G | exact I].
Qed.

(** ** C4: the content type of an attachment *)

(** C4. [SetFileAttachment] with an empty content type stores
    [application/octet-stream]; with a content type that has a character
    outside [A-Za-z0-9/._+-] it ends in the fatal failure of a [CHECK]; with
    any other content type it stores the content type as given. *)
Theorem C4_SetFileAttachment_content_type :
  forall (key upload_file_name : string) (p : FilePath) (content_type : string)
         (this : HTTPMultipartBuilder),
    match content_type with
    | EmptyString =>
        exists this',
          SetFileAttachment key upload_file_name p content_type this = Ok (tt, this')
          /\ stored_content_type key this' = Some "application/octet-stream"
    | _ =>
        if all_chars in_safe_set content_type
        then exists this',
          SetFileAttachment key upload_file_name p content_type this = Ok (tt, this')
          /\ stored_content_type key this' = Some content_type
        else SetFileAttachment key upload_file_name p content_type this = Fatal
    end.
Proof.
  intros key u p ct this. rewrite SetFileAttachment_eq.
  destruct ct as [|c ct].
  - eexists. split; [reflexivity|].
    unfold stored_content_type. cbn [attached file_attachments_].
    now rewrite F.add_eq_o.
  - rewrite AssertSafeMIMEType_spec.
    destruct (all_chars in_safe_set (String c ct)); [|reflexivity].
    eexists. split; [reflexivity|].
    unfold stored_content_type. cbn [attached file_attachments_].
    now rewrite F.add_eq_o.
Qed.

(** ** C5: the boundary *)

Lemma int_of_uint64_small (v : N) : (v < 62)%N -> int_of_uint64 v = Z.of_N v.
Proof.
  intros H. unfold int_of_uint64.
  rewrite Z.mod_small by lia.
  destruct (Z.ltb_spec (Z.of_N v) (2 ^ 31)); [reflexivity | lia].
Qed.

Lemma char_at_kCharacters_alnum (v : N) :
  (v < 62)%N -> is_alnum (char_at kCharacters (Z.of_N v)) = true.
Proof.
  intros H.
  assert (G : forall n, (n < 62)%nat ->
                is_alnum (char_at kCharacters (Z.of_nat n)) = true).
  { intros n Hn. do 62 (destruct n as [|n]; [reflexivity|]). lia. }
  rewrite <- (N2Nat.id v), nat_N_Z. apply G. lia.
Qed.

Section BoundaryProperties.

Variable Rand : Type.
Variable RandGenerator : N -> Rand -> N * Rand.
Hypothesis RandGenerator_range : draws_in_range RandGenerator.

Lemma boundary_loop_draws (n : nat) (s : string) (rng : Rand) :
  boundary_loop RandGenerator n s rng
  = (s ++ chars_of_draws (fst (rand_draws RandGenerator 62 n rng)),
     snd (rand_draws RandGenerator 62 n rng)).
Proof.
  revert s rng. induction n as [|n IH]; intros s rng.
  - simpl. now rewrite append_nil_r.
  - cbn [boundary_loop rand_draws].
    change (N.of_nat (strlen kCharacters)) with 62%N.
    pose proof (RandGenerator_range 62%N rng eq_refl) as Hv.
    destruct (RandGenerator 62%N rng) as [v rng']. cbn [fst] in Hv.
    rewrite IH. destruct (rand_draws RandGenerator 62 n rng') as [vs rng''].
    cbn [fst snd]. rewrite (int_of_uint64_small v Hv).
    unfold chars_of_draws. cbn [map string_of_list_ascii].
    now rewrite append_assoc.
Qed.

Lemma rand_draws_length (n : nat) (rng : Rand) :
  List.length (fst (rand_draws RandGenerator 62 n rng)) = n.
Proof.
  revert rng. induction n as [|n IH]; intros rng; [reflexivity|].
  cbn [rand_draws]. destruct (RandGenerator 62%N rng) as [v rng'].
  specialize (IH rng'). destruct (rand_draws RandGenerator 62 n rng') as [vs rng''].
  simpl in *. now rewrite IH.
Qed.

Lemma rand_draws_alnum (n : nat) (rng : Rand) :
  all_chars is_alnum (chars_of_draws (fst (rand_draws RandGenerator 62 n rng))) = true.
Proof.
  revert rng. induction n as [|n IH]; intros rng; [reflexivity|].
  cbn [rand_draws].
  pose proof (RandGenerator_range 62%N rng eq_refl) as Hv.
  destruct (RandGenerator 62%N rng) as [v rng']. cbn [fst] in Hv.
  specialize (IH rng'). destruct (rand_draws RandGenerator 62 n rng') as [vs rng''].
  cbn [fst] in *. unfold chars_of_draws in *.
  cbn [map string_of_list_ascii all_chars].
  now rewrite (char_at_kCharacters_alnum v Hv), IH.
Qed.

End BoundaryProperties.

Lemma chars_of_draws_length (vs : list N) :
  String.length (chars_of_draws vs) = List.length vs.
Proof.
  unfold chars_of_draws. induction vs as [|v vs IH]; simpl; [reflexivity | now rewrite IH].
Qed.

Lemma kCharacters_NoDup : NoDup (list_ascii_of_string kCharacters).
Proof.
  apply (NoDup_nth _ NUL). intros i j Hi Hj.
  change (List.length (list_ascii_of_string kCharacters)) with 62%nat in Hi, Hj.
  do 62 (destruct i as [|i]; [do 62 (destruct j as [|j]; [first [reflexivity | discriminate]|]); lia|]).
  lia.
Qed.

(** Each character of [0-9A-Za-z] is selected by one value below 62, and no
    other character is selected by any. *)
Lemma kCharacters_preimage (c : ascii) :
  count (fun v => Ascii.eqb (char_at kCharacters (Z.of_nat v)) c) (seq 0 62)
  = if is_alnum c then 1%nat else 0%nat.
Proof. destruct c as [[] [] [] [] [] [] [] []]; vm_compute; reflexivity. Qed.

(** C5. The boundary of a new builder is [---MultipartBoundary-], then 32
    characters, then [---]. The characters are those that 32 successive
    values of [RandGenerator(62)] select in the alphabet, whose 62 characters
    are distinct and are exactly [0-9A-Za-z], each selected by one value
    below 62 and no other character by any, so that a character is as uniform
    on the alphabet as the value is on its range; the constructor consumes these
    32 values and no other. No method changes the boundary. *)
Theorem C5_boundary_token :
  forall (Rand : Type) (RandGenerator : N -> Rand -> N * Rand),
    draws_in_range RandGenerator ->
    forall rng : Rand,
      let draws := fst (rand_draws RandGenerator 62 32 rng) in
      let this := fst (new_HTTPMultipartBuilder RandGenerator rng) in
      boundary_ this = "---MultipartBoundary-" ++ chars_of_draws draws ++ "---"
      /\ List.length draws = 32%nat
      /\ String.length (chars_of_draws draws) = 32%nat
      /\ all_chars is_alnum (chars_of_draws draws) = true
      /\ snd (new_HTTPMultipartBuilder RandGenerator rng)
         = snd (rand_draws RandGenerator 62 32 rng)
      /\ (String.length kCharacters = 62%nat
          /\ NoDup (list_ascii_of_string kCharacters)
          /\ forall c, count (fun v => Ascii.eqb (char_at kCharacters (Z.of_nat v)) c)
                             (seq 0 62)
                       = if is_alnum c then 1%nat else 0%nat)
      /\ (forall key value b,
            boundary_ (state_after (SetFormData key value) b) = boundary_ b)
      /\ (forall key upload_file_name p ctype b,
            boundary_ (state_after (SetFileAttachment key upload_file_name p ctype) b)
            = boundary_ b)
      /\ (forall b, boundary_ (state_after GetBodyStream b) = boundary_ b).
Proof.
  intros Rand RandGenerator Hrange rng draws this.
  assert (E : new_HTTPMultipartBuilder RandGenerator rng
              = ({| boundary_ := "---MultipartBoundary-" ++ chars_of_draws draws ++ "---";
                    form_data_ := M.empty string;
                    file_attachments_ := M.empty FileAttachment |},
                 snd (rand_draws RandGenerator 62 32 rng))).
  { unfold new_HTTPMultipartBuilder, GenerateBoundaryString.
    rewrite (boundary_loop_draws Rand RandGenerator Hrange).
    now rewrite append_assoc. }
  subst this. rewrite E. cbn [fst snd boundary_].
  split; [reflexivity|].
  split; [apply rand_draws_length|].
  split; [unfold draws; rewrite chars_of_draws_length; apply rand_draws_length|].
  split; [now apply rand_draws_alnum|].
  split; [reflexivity|].
  split; [split; [reflexivity | split; [apply kCharacters_NoDup | apply kCharacters_preimage]]|].
  split; [intros key value b; unfold state_after; now rewrite SetFormData_eq|].
  split; [|intros b; unfold state_after; now rewrite GetBodyStream_eq].
  intros key u p ctype b. unfold state_after. rewrite SetFileAttachment_eq.
  destruct ctype as [|c ct]; [reflexivity|].
  destruct (AssertSafeMIMEType (String c ct)) as [[]|]; reflexivity.
Qed.

(** C5, witness: the boundary that the example generator gives from the
    seed 42. *)
Lemma C5_boundary_token_witness :
  boundary_ (fst (new_HTTPMultipartBuilder example_generator 42%N))
  = "---MultipartBoundary-0HFnB097wdpqoWw1aT7vd50WIUHDvpFh---".
Proof.
  refine (eq_trans (proj1 (C5_boundary_token N example_generator _ 42%N)) _).
  - intros range rng H. unfold example_generator. cbn [fst].
    apply N.mod_lt. lia.
  - vm_compute. reflexivity.
Defined.

(** ** C6: SetFormData *)

(** C6. [SetFormData(key, value)] always returns; afterwards [key] holds
    [value] in the form data and nothing in the attachments, the other keys
    and the boundary are as before, and the part that [GetBodyStream] emits
    for [key] carries [value] byte for byte between the blank line and the
    closing line break. *)
Theorem C6_SetFormData_stores_value_verbatim :
  forall (key value : string) (this : HTTPMultipartBuilder),
  exists this',
    SetFormData key value this = Ok (tt, this')
    /\ M.find key (form_data_ this') = Some value
    /\ M.find key (file_attachments_ this') = None
    /\ (forall k, k <> key ->
          M.find k (form_data_ this') = M.find k (form_data_ this)
          /\ M.find k (file_attachments_ this') = M.find k (file_attachments_ this))
    /\ boundary_ this' = boundary_ this
    /\ exists streams,
         GetBodyStream this' = Ok (CompositeHTTPBodyStream streams, this')
         /\ In (StringHTTPBodyStream
                  (GetFormDataBoundary (boundary_ this) key
                     ++ kBoundaryCRLF ++ value ++ kCRLF)) streams.
Proof.
  intros key value this. eexists. split; [apply SetFormData_eq|].
  cbn [form_data_ file_attachments_ boundary_].
  split; [now rewrite F.add_eq_o|].
  split; [apply find_erase_key_same|].
  split.
  { intros k N. split.
    - rewrite F.add_neq_o by congruence. now apply find_erase_key_other.
    - now apply find_erase_key_other. }
  split; [reflexivity|].
  eexists. split; [apply GetBodyStream_eq|].
  unfold body_streams. apply in_or_app. left.
  cbn [form_data_ boundary boundary_].
  apply in_map_iff. exists (key, value). split.
  - unfold field_stream. cbn [fst snd]. now rewrite !append_assoc.
  - apply find_In_elements. now rewrite F.add_eq_o.
Qed.

(** C6, witness: setting [name] on a builder that holds [other]. *)
Lemma C6_SetFormData_stores_value_verbatim_witness :
  exists this',
    SetFormData "name" "value" (state_after (SetFormData "other" "1") (empty_builder "B"))
    = Ok (tt, this')
    /\ M.find "name" (form_data_ this') = Some "value"
    /\ M.find "other" (form_data_ this') = Some "1".
Proof.
  destruct (C6_SetFormData_stores_value_verbatim "name" "value"
              (state_after (SetFormData "other" "1") (empty_builder "B")))
    as (this' & Hrun & Hkey & _ & Hothers & _).
  exists this'. split; [exact Hrun|]. split; [exact Hkey|].
  destruct (Hothers "other") as [Hfd _]; [discriminate|].
  rewrite Hfd. reflexivity.
Defined.

(** ** C7: one part for each entry *)

Lemma prefix_c_str_delimiter (b p x : string) :
  String.prefix (c_str b ++ String CR p) (b ++ String "-" x) = false.
Proof.
  induction b as [|c b IH]; [reflexivity|].
  cbn [c_str]. destruct (Ascii.eqb c NUL) eqn:N.
  - apply Ascii.eqb_eq in N. subst c. reflexivity.
  - simpl. destruct (Ascii.ascii_dec c c); [exact IH | reflexivity].
Qed.

Lemma closing_not_part_header (b : string) :
  String.prefix (part_header_prefix b) (closing_segment b) = false.
Proof.
  unfold part_header_prefix, closing_segment. simpl.
  apply prefix_c_str_delimiter.
Qed.

Lemma part_header_not_closing (b rest : string) :
  String.eqb (part_header_prefix b ++ rest) (closing_segment b) = false.
Proof.
  apply String.eqb_neq. intros E.
  pose proof (prefix_append (part_header_prefix b) rest) as H.
  rewrite E, closing_not_part_header in H. discriminate.
Qed.

Lemma field_stream_header (b : string) (kv : string * string) :
  exists rest, field_stream b kv = StringHTTPBodyStream (part_header_prefix b ++ rest).
Proof.
  unfold field_stream. rewrite GetFormDataBoundary_eq.
  eexists. f_equal. unfold part_header_prefix.
  change kCRLF with crlf. change (str1 DQUOTE) with quote.
  rewrite !append_assoc. reflexivity.
Qed.

Lemma attachment_streams_header (b : string) (ka : string * FileAttachment) :
  exists rest,
    attachment_streams b ka =
    [StringHTTPBodyStream (part_header_prefix b ++ rest);
     FileHTTPBodyStream (path (snd ka));
     StringHTTPBodyStream crlf].
Proof.
  unfold attachment_streams. rewrite GetFormDataBoundary_eq.
  eexists. f_equal. f_equal. unfold part_header_prefix.
  change kCRLF with crlf. change (str1 DQUOTE) with quote.
  rewrite !append_assoc. reflexivity.
Qed.

Lemma count_fields (b : string) (l : list (string * string)) :
  count (is_part_header b) (map (field_stream b) l) = List.length l
  /\ count (is_closing b) (map (field_stream b) l) = 0%nat.
Proof.
  unfold count. induction l as [|kv l [IH1 IH2]]; [split; reflexivity|].
  destruct (field_stream_header b kv) as [rest E].
  cbn [map filter]. rewrite E. cbn [is_part_header is_closing].
  rewrite prefix_append, part_header_not_closing. cbn [List.length].
  now rewrite IH1, IH2.
Qed.

Lemma count_attachments (b : string) (l : list (string * FileAttachment)) :
  count (is_part_header b) (flat_map (attachment_streams b) l) = List.length l
  /\ count (is_closing b) (flat_map (attachment_streams b) l) = 0%nat
  /\ List.length (flat_map (attachment_streams b) l) = (3 * List.length l)%nat.
Proof.
  induction l as [|ka l (IH1 & IH2 & IH3)]; [repeat split; reflexivity|].
  destruct (attachment_streams_header b ka) as [rest E].
  cbn [flat_map]. rewrite !count_app, length_app, IH1, IH2, IH3, E.
  unfold count. cbn [filter is_part_header is_closing].
  rewrite prefix_append, part_header_not_closing.
  replace (String.prefix (part_header_prefix b) crlf) with false by reflexivity.
  replace (String.eqb crlf (closing_segment b)) with false by reflexivity.
  cbn [List.length]. repeat split; lia.
Qed.

Lemma field_stream_emitted (b : string) (kv : string * string) :
  field_stream b kv
  = StringHTTPBodyStream (emitted_field_segment b (fst kv) (snd kv)).
Proof.
  unfold field_stream, emitted_field_segment, disposition_name_line.
  rewrite GetFormDataBoundary_eq, c_str_EncodeMIMEField.
  unfold kBoundaryCRLF. change kCRLF with crlf. change (str1 DQUOTE) with quote.
  now rewrite !append_assoc.
Qed.

Lemma attachment_streams_emitted (b : string) (ka : string * FileAttachment) :
  attachment_streams b ka
  = [StringHTTPBodyStream
       (emitted_attachment_header b (fst ka) (filename (snd ka)) (content_type (snd ka)));
     FileHTTPBodyStream (path (snd ka));
     StringHTTPBodyStream crlf].
Proof.
  unfold attachment_streams, emitted_attachment_header, disposition_file_line,
    disposition_name_line.
  rewrite GetFormDataBoundary_eq, c_str_EncodeMIMEField, printf_filename,
    printf_content_type.
  unfold kBoundaryCRLF. change kCRLF with crlf. change (str1 DQUOTE) with quote.
  do 2 f_equal. now rewrite !append_assoc.
Qed.

Lemma body_streams_emitted (this : HTTPMultipartBuilder) :
  body_streams this = emitted_layout this.
Proof.
  unfold body_streams, emitted_layout, boundary. f_equal; [|f_equal].
  - apply map_ext. intros kv. apply field_stream_emitted.
  - induction (M.elements (file_attachments_ this)) as [|ka l IH]; [reflexivity|].
    cbn [flat_map]. now rewrite IH, attachment_streams_emitted.
Qed.

(** C7. For every builder state, and so for every state whose keys do not
    conflict, the streams of the body are, in this order: one part for each
    stored field, which is the one stream that carries the name and the value
    of this field; one part for each stored attachment, which is the header
    that carries its name, file name and content type, the file at its path
    and a line break; and the closing segment. The parts are as many as the
    stored entries, every part holds one part header, and so the body holds
    as many part headers as there are stored fields and stored attachments
    together, and one closing segment; nothing else is in the body. *)
Theorem C7_one_part_per_entry :
  forall (this : HTTPMultipartBuilder),
  exists streams field_parts attachment_parts,
    GetBodyStream this = Ok (CompositeHTTPBodyStream streams, this)
    /\ streams
       = (field_parts ++ concat attachment_parts
            ++ [StringHTTPBodyStream (closing_segment (boundary_ this))])%list
    /\ field_parts
       = map (fun kv => StringHTTPBodyStream
                          (emitted_field_segment (boundary_ this) (fst kv) (snd kv)))
             (M.elements (form_data_ this))
    /\ attachment_parts
       = map (fun ka =>
                [StringHTTPBodyStream
                   (emitted_attachment_header (boundary_ this) (fst ka)
                      (filename (snd ka)) (content_type (snd ka)));
                 FileHTTPBodyStream (path (snd ka));
                 StringHTTPBodyStream crlf])
             (M.elements (file_attachments_ this))
    /\ (forall key value,
          M.find key (form_data_ this) = Some value ->
          In (StringHTTPBodyStream (emitted_field_segment (boundary_ this) key value))
             field_parts)
    /\ (forall key a,
          M.find key (file_attachments_ this) = Some a ->
          In [StringHTTPBodyStream
                (emitted_attachment_header (boundary_ this) key
                   (filename a) (content_type a));
              FileHTTPBodyStream (path a);
              StringHTTPBodyStream crlf]
             attachment_parts)
    /\ List.length field_parts = M.cardinal (form_data_ this)
    /\ List.length attachment_parts = M.cardinal (file_attachments_ this)
    /\ Forall (fun part => is_part_header (boundary_ this) part = true) field_parts
    /\ Forall (fun part => count (is_part_header (boundary_ this)) part = 1%nat)
              attachment_parts
    /\ count (is_part_header (boundary_ this)) streams
       = (M.cardinal (form_data_ this) + M.cardinal (file_attachments_ this))%nat
    /\ count (is_closing (boundary_ this)) streams = 1%nat
    /\ List.length streams
       = (M.cardinal (form_data_ this) + 3 * M.cardinal (file_attachments_ this) + 1)%nat.
Proof.
  intros this. exists (body_streams this). eexists. eexists.
  split; [apply GetBodyStream_eq|].
  split; [rewrite body_streams_emitted; unfold emitted_layout;
          rewrite flat_map_concat_map; reflexivity|].
  split; [reflexivity|]. split; [reflexivity|].
  split.
  { intros key value H. apply in_map_iff. exists (key, value).
    split; [reflexivity | now apply find_In_elements]. }
  split.
  { intros key a H. apply in_map_iff. exists (key, a).
    split; [reflexivity | now apply find_In_elements]. }
  split; [now rewrite length_map, M.cardinal_1|].
  split; [now rewrite length_map, M.cardinal_1|].
  split.
  { apply Forall_forall. intros part Hin. apply in_map_iff in Hin.
    destruct Hin as (kv & <- & _). rewrite <- field_stream_emitted.
    destruct (field_stream_header (boundary_ this) kv) as [rest E]. rewrite E.
    apply prefix_append. }
  split.
  { apply Forall_forall. intros part Hin. apply in_map_iff in Hin.
    destruct Hin as (ka & <- & _). rewrite <- attachment_streams_emitted.
    destruct (attachment_streams_header (boundary_ this) ka) as [rest E]. rewrite E.
    unfold count. cbn [filter is_part_header]. rewrite prefix_append.
    replace (String.prefix (part_header_prefix (boundary_ this)) crlf)
      with false by reflexivity.
    reflexivity. }
  unfold body_streams, boundary. rewrite !M.cardinal_1.
  destruct (count_fields (boundary_ this) (M.elements (form_data_ this))) as [F1 F2].
  destruct (count_attachments (boundary_ this) (M.elements (file_attachments_ this)))
    as (A1 & A2 & A3).
  rewrite !count_app, !length_app, length_map, F1, F2, A1, A2, A3.
  unfold count. cbn [filter is_part_header is_closing].
  fold (closing_segment (boundary_ this)).
  rewrite closing_not_part_header, String.eqb_refl. cbn [List.length].
  change M.key with string. repeat split; lia.
Qed.

(** C7, witness: a builder with the field [name] and the attachment [file];
    the part of the field carries its name and its value. *)
Lemma C7_one_part_per_entry_witness :
  let this := state_after (SetFormData "name" "value" ;;
                           SetFileAttachment "file" "a.txt" "/tmp/a" EmptyString)
                          (empty_builder "B") in
  exists streams,
    GetBodyStream this = Ok (CompositeHTTPBodyStream streams, this)
    /\ In (StringHTTPBodyStream (emitted_field_segment "B" "name" "value")) streams
    /\ In (FileHTTPBodyStream "/tmp/a") streams
    /\ List.length streams = 5%nat.
Proof.
  intros this.
  destruct (C7_one_part_per_entry this)
    as (streams & fields & atts & Hrun & Hs & _ & _ & Hf & Ha & _ & _ & _ & _ & _ & _ & Hlen).
  exists streams. split; [exact Hrun|].
  specialize (Hf "name" "value" eq_refl).
  specialize (Ha "file" _ eq_refl).
  split; [rewrite Hs; apply in_or_app; left; exact Hf|].
  split; [|exact Hlen].
  rewrite Hs. apply in_or_app. right. apply in_or_app. left.
  apply in_concat. eexists. split; [exact Ha|]. right. left. reflexivity.
Defined.

(** ** C8: the empty builder *)

(** C8. A builder with no field and no attachment gives the closing segment
    [--{boundary}-- CRLF] as its only stream, and its body reads as exactly
    these bytes whatever the files are. *)
Theorem C8_empty_builder :
  forall (this : HTTPMultipartBuilder),
    M.is_empty (form_data_ this) = true ->
    M.is_empty (file_attachments_ this) = true ->
    exists stream,
      GetBodyStream this = Ok (stream, this)
      /\ stream = CompositeHTTPBodyStream
                    [StringHTTPBodyStream ("--" ++ boundary_ this ++ "--" ++ crlf)]
      /\ forall fs : FileSystem,
           ReadAll fs stream = Some ("--" ++ boundary_ this ++ "--" ++ crlf).
Proof.
  intros this Hfd Hfa.
  apply M.is_empty_2 in Hfd. apply M.is_empty_2 in Hfa.
  assert (E : body_streams this
              = [StringHTTPBodyStream ("--" ++ boundary_ this ++ "--" ++ crlf)]).
  { unfold body_streams. now rewrite (elements_Empty _ Hfd), (elements_Empty _ Hfa). }
  eexists. split; [apply GetBodyStream_eq|]. rewrite E. split; [reflexivity|].
  intros fs. simpl. now rewrite append_nil_r.
Qed.

(** C8, witness: the builder with the boundary [B] before any key is set. *)
Lemma C8_empty_builder_witness :
  exists stream,
    GetBodyStream (empty_builder "B") = Ok (stream, empty_builder "B")
    /\ ReadAll (fun _ => None) stream = Some ("--B--" ++ crlf).
Proof.
  destruct (C8_empty_builder (empty_builder "B") eq_refl eq_refl)
    as (stream & Hrun & _ & Hread).
  exists stream. split; [exact Hrun | exact (Hread (fun _ => None))].
Defined.

(** ** C9: the escaping is injective *)

(** C9. Two strings with the same escaped form are the same string. *)
Theorem C9_EncodeMIMEField_injective :
  forall s1 s2 : string, EncodeMIMEField s1 = EncodeMIMEField s2 -> s1 = s2.
Proof.
  induction s1 as [|c1 s1 IH]; intros [|c2 s2] H.
  - reflexivity.
  - exfalso.
    destruct (EncodeMIMEField_cases c2 s2)
      as [[_ E]|[[_ E]|[[_ E]|[[_ E]|[_ E]]]]]; rewrite E in H; discriminate H.
  - exfalso.
    destruct (EncodeMIMEField_cases c1 s1)
      as [[_ E]|[[_ E]|[[_ E]|[[_ E]|[_ E]]]]]; rewrite E in H; discriminate H.
  - destruct (EncodeMIMEField_cases c1 s1)
      as [[N1 E1]|[[-> E1]|[[-> E1]|[[-> E1]|[-> E1]]]]];
    destruct (EncodeMIMEField_cases c2 s2)
      as [[N2 E2]|[[-> E2]|[[-> E2]|[[-> E2]|[-> E2]]]]];
    rewrite E1, E2 in H; simpl in H;
    try discriminate H;
    injection H as H;
    try (subst; discriminate N1);
    try (subst; discriminate N2);
    try (f_equal; now apply IH).
    subst c2. f_equal. now apply IH.
Qed.

(** C9, witness: two strings with the escaped form [a%25b%22]. *)
Lemma C9_EncodeMIMEField_injective_witness :
  String "a" (String PERCENT (String "b" (String DQUOTE EmptyString)))
  = "a%b" ++ quote.
Proof. apply C9_EncodeMIMEField_injective. vm_compute. reflexivity. Defined.

(** ** C10: GetBodyStream leaves the builder as it is *)

(** C10. [GetBodyStream] returns with the builder's state unchanged, and a
    second call gives the same stream as the first. *)
Theorem C10_GetBodyStream_keeps_state :
  forall (this : HTTPMultipartBuilder),
  exists stream,
    GetBodyStream this = Ok (stream, this)
    /\ (first <- GetBodyStream ;; second <- GetBodyStream ;; ret (first, second)) this
       = Ok ((stream, stream), this)
    /\ state_after GetBodyStream this = this.
Proof.
  intros this. eexists. split; [apply GetBodyStream_eq|]. split.
  - unfold bind. rewrite !GetBodyStream_eq. reflexivity.
  - unfold state_after. now rewrite GetBodyStream_eq.
Qed.

(** ** The examples of the specification *)

(** [SetFormData("name", "value")] on a builder with the boundary [B]. *)
Example body_of_one_field :
  (SetFormData "name" "value" ;;
   stream <- GetBodyStream ;;
   ret (ReadAll (fun _ => None) stream)) (empty_builder "B")
  = Ok (Some ("--B" ++ crlf
              ++ "Content-Disposition: form-data; name=" ++ quote ++ "name" ++ quote
              ++ crlf ++ crlf ++ "value" ++ crlf
              ++ "--B--" ++ crlf),
        state_after (SetFormData "name" "value") (empty_builder "B")).
Proof. reflexivity. Qed.

(** [SetFileAttachment("file", "a.txt", path, "")] where the file at [path]
    holds [abc]. *)
Example body_of_one_attachment :
  (SetFileAttachment "file" "a.txt" "/tmp/a.txt" EmptyString ;;
   stream <- GetBodyStream ;;
   ret (ReadAll (fun p => if String.eqb p "/tmp/a.txt" then Some "abc" else None) stream))
    (empty_builder "B")
  = Ok (Some ("--B" ++ crlf
              ++ "Content-Disposition: form-data; name=" ++ quote ++ "file" ++ quote
              ++ "; filename=" ++ quote ++ "a.txt" ++ quote ++ crlf
              ++ "Content-Type: application/octet-stream" ++ crlf ++ crlf
              ++ "abc" ++ crlf
              ++ "--B--" ++ crlf),
        state_after (SetFileAttachment "file" "a.txt" "/tmp/a.txt" EmptyString)
                    (empty_builder "B")).
Proof. reflexivity. Qed.

(** The fields come before the attachments, each collection in the order of
    its keys. *)
Example order_of_parts :
  (SetFileAttachment "a" "f" "/p" EmptyString ;;
   SetFormData "z" "1" ;;
   SetFormData "b" "2" ;;
   stream <- GetBodyStream ;;
   ret (ReadAll (fun _ => Some "DATA") stream)) (empty_builder "B")
  = Ok (Some (form_field_segment "B" "b" "2"
              ++ form_field_segment "B" "z" "1"
              ++ attachment_header_segment "B" "a" "f" "application/octet-stream"
              ++ "DATA" ++ crlf
              ++ closing_segment "B"),
        state_after (SetFileAttachment "a" "f" "/p" EmptyString ;;
                     SetFormData "z" "1" ;; SetFormData "b" "2") (empty_builder "B")).
Proof. reflexivity. Qed.

(** * Further properties of the code *)

(** ** EncodeMIMEField *)

Lemma length_append (a b : string) :
  String.length (a ++ b) = (String.length a + String.length b)%nat.
Proof. induction a as [|c a IH]; simpl; [reflexivity | now rewrite IH]. Qed.

Lemma EncodeMIMEField_length (s : string) :
  String.length (EncodeMIMEField s) = (String.length s + 2 * escaped_count s)%nat.
Proof.
  induction s as [|c s IH]; [reflexivity|].
  cbn [escaped_count String.length].
  destruct (EncodeMIMEField_cases c s)
    as [[N E]|[[-> E]|[[-> E]|[[-> E]|[-> E]]]]]; rewrite E.
  - rewrite N. cbn [String.length]. lia.
  - rewrite length_append, IH. simpl. lia.
  - rewrite length_append, IH. simpl. lia.
  - rewrite length_append, IH. simpl. lia.
  - rewrite length_append, IH. simpl. lia.
Qed.

Lemma escaped_count_le (s : string) : (escaped_count s <= String.length s)%nat.
Proof.
  induction s as [|c s IH]; simpl; [lia|].
  destruct (is_escaped_char c); lia.
Qed.

(** X1. The escaping of a concatenation is the concatenation of the
    escapings: every character is escaped on its own, whatever is around
    it. *)
Theorem X1_EncodeMIMEField_append :
  forall a b : string,
    EncodeMIMEField (a ++ b) = EncodeMIMEField a ++ EncodeMIMEField b.
Proof.
  intros a b. induction a as [|c a IH]; [reflexivity|].
  change (String c a ++ b) with (String c (a ++ b)).
  destruct (EncodeMIMEField_cases c a)
    as [[N E]|[[-> E]|[[-> E]|[[-> E]|[-> E]]]]]; rewrite E.
  - rewrite (EncodeMIMEField_plain c _ N), IH. reflexivity.
  - destruct (EncodeMIMEField_special (a ++ b)) as (H & _). rewrite H, IH. reflexivity.
  - destruct (EncodeMIMEField_special (a ++ b)) as (_ & H & _). rewrite H, IH. reflexivity.
  - destruct (EncodeMIMEField_special (a ++ b)) as (_ & _ & H & _). rewrite H, IH. reflexivity.
  - destruct (EncodeMIMEField_special (a ++ b)) as (_ & _ & _ & H). rewrite H, IH. reflexivity.
Qed.

(** X2. The escaped string is longer than the string by two characters for
    each escaped character, so it has at least the length of the string and
    at most three times that length. *)
Theorem X2_EncodeMIMEField_length :
  forall s : string,
    String.length (EncodeMIMEField s) = (String.length s + 2 * escaped_count s)%nat
    /\ (String.length s <= String.length (EncodeMIMEField s))%nat
    /\ (String.length (EncodeMIMEField s) <= 3 * String.length s)%nat.
Proof.
  intros s. pose proof (EncodeMIMEField_length s) as H.
  pose proof (escaped_count_le s) as L. lia.
Qed.

Lemma EncodeMIMEField_eqb (s : string) :
  String.eqb (EncodeMIMEField s) s = no_escaped_char s.
Proof.
  unfold no_escaped_char.
  induction s as [|c s IH]; [reflexivity|].
  cbn [all_chars]. destruct (is_escaped_char c) eqn:E.
  - cbn [negb andb]. apply String.eqb_neq. intros H.
    apply (f_equal String.length) in H.
    rewrite EncodeMIMEField_length in H. cbn [escaped_count String.length] in H.
    rewrite E in H. lia.
  - rewrite (EncodeMIMEField_plain c s E). cbn [negb andb String.eqb].
    rewrite Ascii.eqb_refl. exact IH.
Qed.

Lemma no_escaped_char_EncodeMIMEField (s : string) :
  no_escaped_char (EncodeMIMEField s) = no_escaped_char s.
Proof.
  unfold no_escaped_char. induction s as [|c s IH]; [reflexivity|].
  destruct (EncodeMIMEField_cases c s)
    as [[N E]|[[-> E]|[[-> E]|[[-> E]|[-> E]]]]]; rewrite E; try reflexivity.
  cbn [all_chars]. now rewrite N, IH.
Qed.

(** X3. The escaping leaves a string as it is exactly when the string has
    no carriage return, line feed, double quote or percent sign, and it is
    not idempotent: escaping an escaped string changes it again as soon as
    one character was escaped, since the percent sign of an escape is
    escaped in turn. *)
Theorem X3_EncodeMIMEField_fixed_point :
  forall s : string,
    (EncodeMIMEField s = s <-> no_escaped_char s = true)
    /\ (EncodeMIMEField (EncodeMIMEField s) = EncodeMIMEField s
        <-> no_escaped_char s = true).
Proof.
  intros s. split.
  - rewrite <- EncodeMIMEField_eqb. symmetry. apply String.eqb_eq.
  - rewrite <- no_escaped_char_EncodeMIMEField, <- EncodeMIMEField_eqb.
    symmetry. apply String.eqb_eq.
Qed.

(** X3, witness: [a.txt] is left as it is, and [50%] is changed by each
    escaping. *)
Lemma X3_EncodeMIMEField_fixed_point_witness :
  EncodeMIMEField "a.txt" = "a.txt"
  /\ EncodeMIMEField (EncodeMIMEField "50%") <> EncodeMIMEField "50%".
Proof.
  split.
  - apply (proj1 (X3_EncodeMIMEField_fixed_point "a.txt")). reflexivity.
  - intros H. apply (proj2 (X3_EncodeMIMEField_fixed_point "50%")) in H.
    discriminate H.
Defined.

(** X4. The escaping neither adds nor removes a NUL: the escaped string has
    one exactly when the string has, and cutting at the first NUL before or
    after the escaping gives the same. *)
Theorem X4_EncodeMIMEField_keeps_NUL :
  forall s : string,
    nul_free (EncodeMIMEField s) = nul_free s
    /\ c_str (EncodeMIMEField s) = EncodeMIMEField (c_str s).
Proof.
  intros s. split; [|apply c_str_EncodeMIMEField].
  induction s as [|c s IH]; [reflexivity|].
  destruct (EncodeMIMEField_cases c s)
    as [[N E]|[[-> E]|[[-> E]|[[-> E]|[-> E]]]]]; rewrite E; simpl; rewrite IH;
    reflexivity.
Qed.

(** ** AssertSafeMIMEType *)

Lemma safe_char_plain (c : ascii) :
  in_safe_set c = true ->
  Ascii.eqb c NUL = false /\ is_escaped_char c = false.
Proof. destruct c as [[] [] [] [] [] [] [] []]; vm_compute; intuition discriminate. Qed.

(** X5. A content type that passes [AssertSafeMIMEType] has no NUL, no
    line break, no double quote and no percent sign: the [%s] of the header
    emits it whole and the escaping would leave it as it is. *)
Theorem X5_AssertSafeMIMEType_accepts_header_safe :
  forall s : string,
    AssertSafeMIMEType s = Ok tt ->
    c_str s = s /\ EncodeMIMEField s = s /\ no_literal_break_or_quote s = true.
Proof.
  intros s H. rewrite AssertSafeMIMEType_spec in H.
  destruct (all_chars in_safe_set s) eqn:S; [clear H | discriminate H].
  assert (Q : no_escaped_char s = true).
  { unfold no_escaped_char. induction s as [|c s IH]; [reflexivity|].
    cbn [all_chars] in *. apply andb_true_iff in S. destruct S as [Sc Ss].
    destruct (safe_char_plain c Sc) as [_ ->]. now rewrite IH. }
  split; [apply c_str_nul_free; now apply all_chars_safe_nul_free|].
  assert (E : EncodeMIMEField s = s).
  { apply String.eqb_eq. rewrite <- Q. apply EncodeMIMEField_eqb. }
  split; [exact E|]. rewrite <- E. apply no_literal_EncodeMIMEField.
Qed.

(** X5, witness: [text/plain]. *)
Lemma X5_AssertSafeMIMEType_accepts_header_safe_witness :
  c_str "text/plain" = "text/plain"
  /\ EncodeMIMEField "text/plain" = "text/plain"
  /\ no_literal_break_or_quote "text/plain" = true.
Proof. apply X5_AssertSafeMIMEType_accepts_header_safe. reflexivity. Defined.

(** X6. [AssertSafeMIMEType] checks the characters from left to right: a
    concatenation passes exactly when its first part passes and then its
    second part does; the empty string passes. *)
Theorem X6_AssertSafeMIMEType_append :
  forall a b : string,
    AssertSafeMIMEType (a ++ b)
    = match AssertSafeMIMEType a with
      | Ok _ => AssertSafeMIMEType b
      | Fatal => Fatal
      end.
Proof.
  intros a b. induction a as [|c a IH]; [reflexivity|].
  cbn [append AssertSafeMIMEType]. destruct (CHECK (safe_mime_char c)); [exact IH | reflexivity].
Qed.

(** ** The maps, further *)

Lemma find_erase_key_o {V : Type} (key k : string) (m : M.t V) :
  M.find k (erase_key key m) = if M.E.eq_dec key k then None else M.find k m.
Proof.
  destruct (M.E.eq_dec key k) as [<-|N].
  - apply find_erase_key_same.
  - apply find_erase_key_other. congruence.
Qed.

Lemma elements_Equal {V : Type} (m m' : M.t V) :
  M.Equal m m' -> M.elements m = M.elements m'.
Proof.
  intros H. apply P.elements_Equal_eqlistA in H.
  revert H. generalize (M.elements m) (M.elements m').
  intros l l' H. induction H as [|x x' l l' Hx Hl IH]; [reflexivity|].
  destruct x as [k v], x' as [k' v'], Hx as [Hk Hv].
  simpl in Hk, Hv. rewrite Hk, Hv, IH. reflexivity.
Qed.

Lemma cardinal_erase_key {V : Type} (key : string) (m : M.t V) :
  (M.cardinal (erase_key key m) + (if M.mem key m then 1 else 0))%nat = M.cardinal m.
Proof.
  unfold erase_key. rewrite F.mem_find_b.
  destruct (M.find key m) as [e|] eqn:E; [|lia].
  rewrite (P.P.cardinal_2 (m := M.remove key m) (m' := m) (x := key) (e := e)).
  - lia.
  - apply M.remove_1. reflexivity.
  - intros y. rewrite F.add_o, F.remove_o.
    destruct (M.E.eq_dec key y) as [<-|]; [exact E | reflexivity].
Qed.

Lemma keys_disjoint_spec (this : HTTPMultipartBuilder) :
  keys_disjoint this = true
  <-> forall k, M.find k (form_data_ this) = None
                \/ M.find k (file_attachments_ this) = None.
Proof.
  unfold keys_disjoint. rewrite forallb_forall. split.
  - intros H k. destruct (M.find k (form_data_ this)) as [v|] eqn:E; [right | now left].
    specialize (H (k, v) (find_In_elements _ _ _ E)). cbn [fst] in H.
    rewrite F.mem_find_b in H.
    destruct (M.find k (file_attachments_ this)); [discriminate H | reflexivity].
  - intros H [k v] Hin. cbn [fst]. apply In_elements_find in Hin.
    rewrite F.mem_find_b. destruct (H k) as [E|E]; [congruence | now rewrite E].
Qed.

Lemma body_streams_ext (this this' : HTTPMultipartBuilder) :
  boundary_ this = boundary_ this' ->
  M.elements (form_data_ this) = M.elements (form_data_ this') ->
  M.elements (file_attachments_ this) = M.elements (file_attachments_ this') ->
  body_streams this = body_streams this'.
Proof. unfold body_streams, boundary. now intros -> -> ->. Qed.

Lemma stream_of_eq (this : HTTPMultipartBuilder) :
  stream_of this = Some (CompositeHTTPBodyStream (body_streams this)).
Proof. unfold stream_of. now rewrite GetBodyStream_eq. Qed.

Ltac find_cases :=
  repeat (rewrite ?F.add_o, ?find_erase_key_o);
  repeat match goal with
         | |- context [M.E.eq_dec ?a ?b] => destruct (M.E.eq_dec a b)
         end;
  subst; try congruence; try reflexivity.

(** ** EraseKey *)

(** X7. [EraseKey] of a key that neither map holds leaves the builder as
    it is. *)
Theorem X7_EraseKey_missing_key :
  forall (key : string) (this : HTTPMultipartBuilder),
    M.find key (form_data_ this) = None ->
    M.find key (file_attachments_ this) = None ->
    EraseKey key this = Ok (tt, this).
Proof.
  intros key [b fd fa] Hfd Hfa. cbn [form_data_ file_attachments_] in *.
  unfold EraseKey, bind, get_this. cbn [form_data_ file_attachments_].
  rewrite Hfd. cbn [ret]. cbn [form_data_ file_attachments_]. now rewrite Hfa.
Qed.

(** X7, witness: a key that a builder with one field does not hold. *)
Lemma X7_EraseKey_missing_key_witness :
  EraseKey "absent" (state_after (SetFormData "name" "value") (empty_builder "B"))
  = Ok (tt, state_after (SetFormData "name" "value") (empty_builder "B")).
Proof. apply X7_EraseKey_missing_key; reflexivity. Defined.

(** X8. [EraseKey] always returns. Afterwards neither map holds the key,
    every other key holds what it held, the boundary is the same, each map
    has lost one entry if it held the key and none otherwise, and a second
    [EraseKey] of the key changes nothing. *)
Theorem X8_EraseKey_removes_key_only :
  forall (key : string) (this : HTTPMultipartBuilder),
  exists this',
    EraseKey key this = Ok (tt, this')
    /\ M.find key (form_data_ this') = None
    /\ M.find key (file_attachments_ this') = None
    /\ (forall k, k <> key ->
          M.find k (form_data_ this') = M.find k (form_data_ this)
          /\ M.find k (file_attachments_ this') = M.find k (file_attachments_ this))
    /\ boundary_ this' = boundary_ this
    /\ (M.cardinal (form_data_ this')
        + (if M.mem key (form_data_ this) then 1 else 0))%nat
       = M.cardinal (form_data_ this)
    /\ (M.cardinal (file_attachments_ this')
        + (if M.mem key (file_attachments_ this) then 1 else 0))%nat
       = M.cardinal (file_attachments_ this)
    /\ EraseKey key this' = Ok (tt, this').
Proof.
  intros key this. eexists. split; [apply EraseKey_eq|].
  cbn [form_data_ file_attachments_ boundary_].
  split; [apply find_erase_key_same|]. split; [apply find_erase_key_same|].
  split; [intros k N; split; now apply find_erase_key_other|].
  split; [reflexivity|].
  split; [apply cardinal_erase_key|]. split; [apply cardinal_erase_key|].
  rewrite EraseKey_eq. cbn [form_data_ file_attachments_ boundary_].
  unfold erase_key at 1 3. now rewrite !find_erase_key_same.
Qed.

(** X8, witness: erasing [name] from a builder that holds [name] and
    [other]. *)
Lemma X8_EraseKey_removes_key_only_witness :
  exists this',
    EraseKey "name"
      (state_after (SetFormData "name" "1" ;; SetFormData "other" "2") (empty_builder "B"))
    = Ok (tt, this')
    /\ M.find "name" (form_data_ this') = None
    /\ M.find "other" (form_data_ this') = Some "2".
Proof.
  destruct (X8_EraseKey_removes_key_only "name"
              (state_after (SetFormData "name" "1" ;; SetFormData "other" "2")
                           (empty_builder "B")))
    as (this' & Hrun & Hkey & _ & Hothers & _).
  exists this'. split; [exact Hrun|]. split; [exact Hkey|].
  destruct (Hothers "other") as [Hfd _]; [discriminate|].
  rewrite Hfd. reflexivity.
Defined.

(** ** SetFormData, further *)

(** X9. The last write wins: setting a key twice leaves the same entries,
    and the same body, as setting it once to the second value. *)
Theorem X9_SetFormData_last_write_wins :
  forall (key v1 v2 : string) (this : HTTPMultipartBuilder),
    let twice := state_after (SetFormData key v1 ;; SetFormData key v2) this in
    let once := state_after (SetFormData key v2) this in
    M.elements (form_data_ twice) = M.elements (form_data_ once)
    /\ M.elements (file_attachments_ twice) = M.elements (file_attachments_ once)
    /\ stream_of twice = stream_of once.
Proof.
  intros key v1 v2 this twice once.
  assert (Hfd : M.elements (form_data_ twice) = M.elements (form_data_ once)).
  { subst twice once. unfold state_after, bind. rewrite !SetFormData_eq.
    cbn [form_data_]. apply elements_Equal. intros y. find_cases. }
  assert (Hfa : M.elements (file_attachments_ twice)
                = M.elements (file_attachments_ once)).
  { subst twice once. unfold state_after, bind. rewrite !SetFormData_eq.
    cbn [file_attachments_]. apply elements_Equal. intros y. find_cases. }
  split; [exact Hfd|]. split; [exact Hfa|].
  rewrite !stream_of_eq. f_equal. f_equal. apply body_streams_ext; try assumption.
  subst twice once. unfold state_after, bind. now rewrite !SetFormData_eq.
Qed.

(** X10. Fields with different keys can be set in either order: the
    entries and the body are the same. *)
Theorem X10_SetFormData_commutes :
  forall (k1 v1 k2 v2 : string) (this : HTTPMultipartBuilder),
    k1 <> k2 ->
    let a := state_after (SetFormData k1 v1 ;; SetFormData k2 v2) this in
    let b := state_after (SetFormData k2 v2 ;; SetFormData k1 v1) this in
    M.elements (form_data_ a) = M.elements (form_data_ b)
    /\ M.elements (file_attachments_ a) = M.elements (file_attachments_ b)
    /\ stream_of a = stream_of b.
Proof.
  intros k1 v1 k2 v2 this N a b.
  assert (Hfd : M.elements (form_data_ a) = M.elements (form_data_ b)).
  { subst a b. unfold state_after, bind. rewrite !SetFormData_eq.
    cbn [form_data_]. apply elements_Equal. intros y. find_cases. }
  assert (Hfa : M.elements (file_attachments_ a) = M.elements (file_attachments_ b)).
  { subst a b. unfold state_after, bind. rewrite !SetFormData_eq.
    cbn [file_attachments_]. apply elements_Equal. intros y. find_cases. }
  split; [exact Hfd|]. split; [exact Hfa|].
  rewrite !stream_of_eq. f_equal. f_equal. apply body_streams_ext; try assumption.
  subst a b. unfold state_after, bind. now rewrite !SetFormData_eq.
Qed.

(** X10, witness: [z] and [b] set in the two orders. *)
Lemma X10_SetFormData_commutes_witness :
  stream_of (state_after (SetFormData "z" "1" ;; SetFormData "b" "2") (empty_builder "B"))
  = stream_of (state_after (SetFormData "b" "2" ;; SetFormData "z" "1") (empty_builder "B")).
Proof.
  apply (X10_SetFormData_commutes "z" "1" "b" "2" (empty_builder "B")).
  discriminate.
Defined.

(** X11. [SetFormData] keeps the two collections disjoint: if no key was
    both a field and an attachment before, none is afterwards; and the key
    that is set is never an attachment afterwards. *)
Theorem X11_SetFormData_keeps_keys_disjoint :
  forall (key value : string) (this : HTTPMultipartBuilder),
    keys_disjoint this = true ->
    keys_disjoint (state_after (SetFormData key value) this) = true.
Proof.
  intros key value this H. rewrite keys_disjoint_spec in *.
  unfold state_after. rewrite SetFormData_eq. cbn [form_data_ file_attachments_].
  intros k. destruct (H k) as [E|E]; find_cases; auto.
Qed.

(** X11, witness: setting as a field a key that was an attachment. *)
Lemma X11_SetFormData_keeps_keys_disjoint_witness :
  keys_disjoint
    (state_after (SetFileAttachment "k" "k" "/p" EmptyString ;; SetFormData "k" "v")
                 (empty_builder "B")) = true.
Proof.
  apply (X11_SetFormData_keeps_keys_disjoint "k" "v"
           (state_after (SetFileAttachment "k" "k" "/p" EmptyString) (empty_builder "B"))).
  reflexivity.
Defined.

(** ** SetFileAttachment, further *)

Lemma SetFileAttachment_cases
    (key u : string) (p : FilePath) (ctype : string) (this : HTTPMultipartBuilder) :
  SetFileAttachment key u p ctype this = Fatal
  \/ exists stored,
       SetFileAttachment key u p ctype this = Ok (tt, attached key u p stored this)
       /\ all_chars in_safe_set stored = true.
Proof.
  rewrite SetFileAttachment_eq. destruct ctype as [|c ct].
  - right. eexists. split; reflexivity.
  - rewrite AssertSafeMIMEType_spec.
    destruct (all_chars in_safe_set (String c ct)) eqn:S; [|now left].
    right. eexists. split; [reflexivity | exact S].
Qed.

Lemma state_after_SetFileAttachment
    (key u : string) (p : FilePath) (ctype : string) (this : HTTPMultipartBuilder) :
  state_after (SetFileAttachment key u p ctype) this = this
  \/ exists stored,
       state_after (SetFileAttachment key u p ctype) this = attached key u p stored this
       /\ all_chars in_safe_set stored = true.
Proof.
  unfold state_after.
  destruct (SetFileAttachment_cases key u p ctype this) as [->|(stored & -> & S)];
    [now left | right; now exists stored].
Qed.

(** X12. [SetFileAttachment] keeps the two collections disjoint when the
    upload name is the key, or when the key is not a form field: if no key
    was both a field and an attachment before, none is afterwards. *)
Theorem X12_SetFileAttachment_keeps_keys_disjoint :
  forall (key upload_file_name : string) (p : FilePath) (ctype : string)
         (this : HTTPMultipartBuilder),
    keys_disjoint this = true ->
    key = upload_file_name \/ M.find key (form_data_ this) = None ->
    keys_disjoint (state_after (SetFileAttachment key upload_file_name p ctype) this)
    = true.
Proof.
  intros key u p ctype this H C.
  destruct (state_after_SetFileAttachment key u p ctype this)
    as [->|(stored & -> & _)]; [exact H|].
  rewrite keys_disjoint_spec in *. cbn [attached form_data_ file_attachments_].
  intros k. destruct (H k) as [E|E], C as [C|C]; find_cases; auto.
Qed.

(** X12, witness: a file attached under a key that held a field, with the
    key as upload name. *)
Lemma X12_SetFileAttachment_keeps_keys_disjoint_witness :
  keys_disjoint
    (state_after (SetFileAttachment "k" "k" "/p" "text/plain")
                 (state_after (SetFormData "k" "v") (empty_builder "B"))) = true.
Proof.
  apply X12_SetFileAttachment_keeps_keys_disjoint; [reflexivity | now left].
Defined.

(** X13. [SetFileAttachment] with an upload name other than the key, on a
    key that holds a form field, leaves the field where it is whenever it
    returns: the key is then both a field and an attachment. *)
Theorem X13_SetFileAttachment_keeps_field_of_key :
  forall (key upload_file_name : string) (p : FilePath) (ctype value : string)
         (this this' : HTTPMultipartBuilder),
    key <> upload_file_name ->
    M.find key (form_data_ this) = Some value ->
    SetFileAttachment key upload_file_name p ctype this = Ok (tt, this') ->
    M.find key (form_data_ this') = Some value
    /\ M.mem key (file_attachments_ this') = true
    /\ keys_disjoint this' = false.
Proof.
  intros key u p ctype value this this' N Hv Hrun.
  destruct (SetFileAttachment_cases key u p ctype this) as [E|(stored & E & _)];
    rewrite E in Hrun; [discriminate Hrun|].
  injection Hrun as <-. cbn [attached form_data_ file_attachments_].
  assert (Hfd : M.find key (erase_key u (form_data_ this)) = Some value)
    by (rewrite find_erase_key_other; assumption).
  assert (Hfa : M.mem key (M.add key {| filename := EncodeMIMEField u; path := p;
                                         content_type := stored |}
                                 (erase_key u (file_attachments_ this))) = true)
    by (rewrite F.mem_find_b, F.add_eq_o; reflexivity).
  split; [exact Hfd|]. split; [exact Hfa|].
  destruct (keys_disjoint (attached key u p stored this)) eqn:D; [|reflexivity].
  rewrite keys_disjoint_spec in D. cbn [attached form_data_ file_attachments_] in D.
  rewrite F.mem_find_b in Hfa.
  destruct (D key) as [E'|E']; rewrite E' in *; discriminate.
Qed.

(** X13, witness: the field [k] and then the file [a.txt] attached under
    [k]. *)
Lemma X13_SetFileAttachment_keeps_field_of_key_witness :
  keys_disjoint
    (state_after (SetFileAttachment "k" "a.txt" "/p" EmptyString)
                 (state_after (SetFormData "k" "v") (empty_builder "B"))) = false.
Proof.
  apply (X13_SetFileAttachment_keeps_field_of_key "k" "a.txt" "/p" EmptyString "v"
           (state_after (SetFormData "k" "v") (empty_builder "B")));
    [discriminate | reflexivity | reflexivity].
Defined.

(** X14. What a call of [SetFileAttachment] that returns changes: the key
    holds the new attachment, whose file name is the escaped upload name,
    in place of any attachment it held; the upload name is no key of the form
    data any more, nor of the attachments unless it is the key; every key
    other than these two holds what it held, and so does the key in the form
    data when it is not the upload name. *)
Theorem X14_SetFileAttachment_effect :
  forall (key upload_file_name : string) (p : FilePath) (ctype : string)
         (this this' : HTTPMultipartBuilder),
    SetFileAttachment key upload_file_name p ctype this = Ok (tt, this') ->
    (exists stored,
       M.find key (file_attachments_ this')
       = Some {| filename := EncodeMIMEField upload_file_name;
                 path := p; content_type := stored |})
    /\ M.find upload_file_name (form_data_ this') = None
    /\ (upload_file_name <> key ->
        M.find upload_file_name (file_attachments_ this') = None)
    /\ (key <> upload_file_name ->
        M.find key (form_data_ this') = M.find key (form_data_ this))
    /\ (forall k, k <> key -> k <> upload_file_name ->
          M.find k (form_data_ this') = M.find k (form_data_ this)
          /\ M.find k (file_attachments_ this') = M.find k (file_attachments_ this)).
Proof.
  intros key u p ctype this this' Hrun.
  destruct (SetFileAttachment_cases key u p ctype this) as [E|(stored & E & _)];
    rewrite E in Hrun; [discriminate Hrun|].
  injection Hrun as <-. cbn [attached form_data_ file_attachments_].
  split; [exists stored; now rewrite F.add_eq_o|].
  split; [apply find_erase_key_same|].
  split; [intros N; find_cases|].
  split; [intros N; find_cases|].
  intros k N1 N2. split; find_cases.
Qed.

(** X14, witness: attaching [a.txt] under [file] removes the field that was
    stored under [a.txt] and keeps the field [name]. *)
Lemma X14_SetFileAttachment_effect_witness :
  let this := state_after (SetFormData "a.txt" "1" ;; SetFormData "name" "2")
                          (empty_builder "B") in
  let this' := state_after (SetFileAttachment "file" "a.txt" "/p" EmptyString) this in
  M.find "a.txt" (form_data_ this') = None
  /\ M.find "name" (form_data_ this') = Some "2".
Proof.
  intros this this'.
  destruct (X14_SetFileAttachment_effect "file" "a.txt" "/p" EmptyString this this')
    as (_ & Hu & _ & _ & Hothers); [reflexivity|].
  split; [exact Hu|].
  destruct (Hothers "name") as [Hfd _]; [discriminate | discriminate |].
  rewrite Hfd. reflexivity.
Defined.

(** ** What the attachments hold *)

(** X15. In a builder that starts empty, every stored attachment has an
    escaped file name and a content type made of the accepted characters:
    this holds of the empty builder, and [SetFormData] and
    [SetFileAttachment] keep it. *)
Theorem X15_attachments_stay_safe :
  (forall b, attachments_safe (empty_builder b) = true)
  /\ (forall key value this,
        attachments_safe this = true ->
        attachments_safe (state_after (SetFormData key value) this) = true)
  /\ (forall key upload_file_name p ctype this,
        attachments_safe this = true ->
        attachments_safe
          (state_after (SetFileAttachment key upload_file_name p ctype) this) = true).
Proof.
  split; [reflexivity|]. split.
  - intros key value this. unfold attachments_safe, state_after.
    rewrite SetFormData_eq. cbn [file_attachments_].
    rewrite !forallb_forall. intros H ka Hin.
    apply H. now apply In_elements_erase_key in Hin.
  - intros key u p ctype this H.
    destruct (state_after_SetFileAttachment key u p ctype this)
      as [->|(stored & -> & S)]; [exact H|].
    revert H. unfold attachments_safe. cbn [attached file_attachments_].
    rewrite !forallb_forall. intros H ka Hin.
    apply In_elements_add in Hin. destruct Hin as [->|Hin].
    + cbn [snd filename content_type]. now rewrite well_escaped_EncodeMIMEField, S.
    + apply H. now apply In_elements_erase_key in Hin.
Qed.

(** X15, witness: a builder after one attachment and one field. *)
Lemma X15_attachments_stay_safe_witness :
  attachments_safe
    (state_after (SetFormData "name" "value")
       (state_after (SetFileAttachment "file" "a%b.txt" "/p" "text/plain")
                    (empty_builder "B"))) = true.
Proof.
  destruct X15_attachments_stay_safe as (H0 & Hfield & Hfile).
  apply Hfield, Hfile, H0.
Defined.

(** ** The number of entries *)

Lemma cardinal_add_erase_key {V : Type} (key : string) (v : V) (m : M.t V) :
  M.cardinal (M.add key v (erase_key key m))
  = if M.mem key m then M.cardinal m else S (M.cardinal m).
Proof.
  rewrite (P.P.cardinal_2 (m := erase_key key m) (x := key) (e := v)).
  - pose proof (cardinal_erase_key key m) as H.
    destruct (M.mem key m); lia.
  - intros H. apply F.in_find_iff in H. now rewrite find_erase_key_same in H.
  - intros y. reflexivity.
Qed.

(** X16. [SetFormData] adds one field when the key was not a field and
    leaves the number of fields as it is when the key was one; it removes one
    attachment when the key was an attachment and none otherwise. *)
Theorem X16_SetFormData_cardinal :
  forall (key value : string) (this : HTTPMultipartBuilder),
    let this' := state_after (SetFormData key value) this in
    M.cardinal (form_data_ this')
    = (if M.mem key (form_data_ this)
       then M.cardinal (form_data_ this)
       else S (M.cardinal (form_data_ this)))
    /\ (M.cardinal (file_attachments_ this')
        + (if M.mem key (file_attachments_ this) then 1 else 0))%nat
       = M.cardinal (file_attachments_ this).
Proof.
  intros key value this this'. subst this'. unfold state_after.
  rewrite SetFormData_eq. cbn [form_data_ file_attachments_].
  split; [apply cardinal_add_erase_key | apply cardinal_erase_key].
Qed.

(** ** Decoding the escaped strings *)

Lemma append_inv_head (a b c : string) : a ++ b = a ++ c -> b = c.
Proof.
  induction a as [|x a IH]; simpl; intros H; [assumption|].
  injection H as H. now apply IH.
Qed.

Lemma append_inv_tail (a b : string) (c : ascii) :
  a ++ str1 c = b ++ str1 c -> a = b.
Proof.
  revert b. induction a as [|x a IH]; intros [|y b] H; simpl in H.
  - reflexivity.
  - injection H as _ H. destruct b; discriminate H.
  - injection H as _ H. destruct a; discriminate H.
  - injection H as -> H. f_equal. now apply IH.
Qed.

Lemma DecodeMIMEField_EncodeMIMEField (s : string) :
  DecodeMIMEField (EncodeMIMEField s) = Some s.
Proof.
  induction s as [|c s IH]; [reflexivity|].
  destruct (EncodeMIMEField_cases c s)
    as [[N E]|[[-> E]|[[-> E]|[[-> E]|[-> E]]]]]; rewrite E.
  - cbn [DecodeMIMEField]. rewrite N, IH.
    unfold is_escaped_char in N. rewrite !orb_false_iff in N.
    destruct N as (_ & ->). reflexivity.
  - simpl. now rewrite IH.
  - simpl. now rewrite IH.
  - simpl. now rewrite IH.
  - simpl. now rewrite IH.
Qed.

Lemma EncodeMIMEField_inj (s1 s2 : string) :
  EncodeMIMEField s1 = EncodeMIMEField s2 -> s1 = s2.
Proof.
  intros H. apply (f_equal DecodeMIMEField) in H.
  rewrite !DecodeMIMEField_EncodeMIMEField in H. now injection H.
Qed.

Lemma decode_escape_Some (h l x : ascii) :
  decode_escape h l = Some x ->
  is_escape_code h l = true
  /\ forall rest, EncodeMIMEField (String x rest)
                  = String PERCENT (String h (String l (EncodeMIMEField rest))).
Proof.
  unfold decode_escape, is_escape_code. intros H.
  destruct (Ascii.eqb h "0" && Ascii.eqb l "d") eqn:E1.
  { apply andb_true_iff in E1. destruct E1 as [Eh El].
    apply Ascii.eqb_eq in Eh, El. subst. injection H as <-.
    split; [reflexivity|]. intros rest. apply (EncodeMIMEField_special rest). }
  destruct (Ascii.eqb h "0" && Ascii.eqb l "a") eqn:E2.
  { apply andb_true_iff in E2. destruct E2 as [Eh El].
    apply Ascii.eqb_eq in Eh, El. subst. injection H as <-.
    split; [reflexivity|]. intros rest. apply (EncodeMIMEField_special rest). }
  destruct (Ascii.eqb h "2" && Ascii.eqb l "2") eqn:E3.
  { apply andb_true_iff in E3. destruct E3 as [Eh El].
    apply Ascii.eqb_eq in Eh, El. subst. injection H as <-.
    split; [reflexivity|]. intros rest. apply (EncodeMIMEField_special rest). }
  destruct (Ascii.eqb h "2" && Ascii.eqb l "5") eqn:E4; [|discriminate H].
  apply andb_true_iff in E4. destruct E4 as [Eh El].
  apply Ascii.eqb_eq in Eh, El. subst. injection H as <-.
  split; [reflexivity|]. intros rest. apply (EncodeMIMEField_special rest).
Qed.

Lemma DecodeMIMEField_Some (n : nat) :
  forall t s, (String.length t < n)%nat ->
    DecodeMIMEField t = Some s -> EncodeMIMEField s = t /\ well_escaped t = true.
Proof.
  induction n as [|n IH]; intros t s Hlen H; [lia|].
  destruct t as [|c t]; [injection H as <-; split; reflexivity|].
  cbn [DecodeMIMEField well_escaped] in *.
  destruct (Ascii.eqb c PERCENT) eqn:Pc.
  - apply Ascii.eqb_eq in Pc. subst c.
    destruct t as [|h [|l t']]; try discriminate H.
    destruct (decode_escape h l) as [x|] eqn:D; [|discriminate H].
    destruct (DecodeMIMEField t') as [r|] eqn:R; [|discriminate H].
    injection H as <-.
    destruct (decode_escape_Some h l x D) as [C Henc].
    destruct (IH t' r) as [E W]; [simpl in Hlen; lia | exact R |].
    rewrite Henc, E, C, W. split; reflexivity.
  - destruct (is_escaped_char c) eqn:N; [discriminate H|].
    destruct (DecodeMIMEField t) as [r|] eqn:R; [|discriminate H].
    injection H as <-.
    destruct (IH t r) as [E W]; [simpl in Hlen; lia | exact R |].
    rewrite (EncodeMIMEField_plain c r N), E, W.
    unfold is_escaped_char in N. rewrite !orb_false_iff in N.
    destruct N as (((-> & ->) & ->) & _). split; reflexivity.
Qed.

(** X17. The escaping can be undone: decoding an escaped string gives the
    string back, and a string that decodes is the escaping of what it decodes
    to, so that the escaped strings are exactly the strings that decode. *)
Theorem X17_EncodeMIMEField_decodable :
  (forall s, DecodeMIMEField (EncodeMIMEField s) = Some s)
  /\ (forall t s, DecodeMIMEField t = Some s -> EncodeMIMEField s = t).
Proof.
  split; [exact DecodeMIMEField_EncodeMIMEField|].
  intros t s H.
  exact (proj1 (DecodeMIMEField_Some (S (String.length t)) t s (Nat.lt_succ_diag_r _) H)).
Qed.

(** X17, witness: [50%25] decodes to [50%], of which it is the escaping. *)
Lemma X17_EncodeMIMEField_decodable_witness :
  EncodeMIMEField "50%" = "50%25".
Proof. apply (proj2 X17_EncodeMIMEField_decodable). reflexivity. Defined.

(** ** GetFormDataBoundary, further *)

(** X18. For one boundary, [GetFormDataBoundary] gives the same header for
    two names exactly when the names are the same up to their first NUL; two
    names without NUL that differ have different headers. *)
Theorem X18_GetFormDataBoundary_injective :
  forall b n1 n2 : string,
    GetFormDataBoundary b n1 = GetFormDataBoundary b n2 <-> c_str n1 = c_str n2.
Proof.
  intros b n1 n2. rewrite !GetFormDataBoundary_eq, !c_str_EncodeMIMEField. split.
  - intros H.
    apply (append_inv_head "--") in H. apply append_inv_head in H.
    apply (append_inv_head kCRLF) in H.
    apply (append_inv_head "Content-Disposition: form-data; name=") in H.
    apply (append_inv_head (str1 DQUOTE)) in H.
    apply append_inv_tail in H. now apply EncodeMIMEField_inj.
  - now intros ->.
Qed.

(** X18, witness: the names [a] and [b] have different headers. *)
Lemma X18_GetFormDataBoundary_injective_witness :
  GetFormDataBoundary "B" "a" <> GetFormDataBoundary "B" "b".
Proof.
  intros H. apply (proj1 (X18_GetFormDataBoundary_injective "B" "a" "b")) in H.
  discriminate H.
Defined.

(** ** The boundary, further *)

Lemma all_chars_app (p : ascii -> bool) (a b : string) :
  all_chars p (a ++ b) = all_chars p a && all_chars p b.
Proof.
  induction a as [|c a IH]; simpl; [reflexivity|].
  now rewrite IH, andb_assoc.
Qed.

Lemma all_chars_impl (p q : ascii -> bool) (s : string) :
  (forall c, p c = true -> q c = true) ->
  all_chars p s = true -> all_chars q s = true.
Proof.
  intros I. induction s as [|c s IH]; simpl; [reflexivity|].
  rewrite !andb_true_iff. intros [Hc Hs]. split; [now apply I | now apply IH].
Qed.

Lemma boundary_char_plain (c : ascii) :
  boundary_char c = true -> negb (Ascii.eqb c NUL) = true /\ is_escaped_char c = false.
Proof. destruct c as [[] [] [] [] [] [] [] []]; vm_compute; intuition discriminate. Qed.

Lemma nul_free_all_chars (s : string) :
  nul_free s = all_chars (fun c => negb (Ascii.eqb c NUL)) s.
Proof. induction s as [|c s IH]; simpl; [reflexivity | now rewrite IH]. Qed.

Lemma GenerateBoundaryString_eq
    (Rand : Type) (RandGenerator : N -> Rand -> N * Rand)
    (Hrange : draws_in_range RandGenerator) (rng : Rand) :
  GenerateBoundaryString RandGenerator rng
  = ("---MultipartBoundary-"
       ++ chars_of_draws (fst (rand_draws RandGenerator 62 32 rng)) ++ "---",
     snd (rand_draws RandGenerator 62 32 rng)).
Proof.
  unfold GenerateBoundaryString.
  rewrite (boundary_loop_draws Rand RandGenerator Hrange).
  now rewrite append_assoc.
Qed.

(** X19. With a random source that keeps to its range,
    [GenerateBoundaryString] returns a string of 56 characters, as its
    comment says, which is within the 1 to 70 characters of RFC 2046; all its
    characters are letters, digits or hyphens, so that it has no NUL and
    nothing that the escaping would change. *)
Theorem X19_GenerateBoundaryString_shape :
  forall (Rand : Type) (RandGenerator : N -> Rand -> N * Rand),
    draws_in_range RandGenerator ->
    forall rng : Rand,
      let b := fst (GenerateBoundaryString RandGenerator rng) in
      String.length b = 56%nat
      /\ all_chars boundary_char b = true
      /\ nul_free b = true
      /\ c_str b = b
      /\ EncodeMIMEField b = b.
Proof.
  intros Rand RandGenerator Hrange rng b.
  assert (A : all_chars boundary_char b = true).
  { subst b. rewrite (GenerateBoundaryString_eq Rand RandGenerator Hrange). cbn [fst].
    rewrite !all_chars_app. rewrite andb_true_iff. split; [reflexivity|].
    rewrite andb_true_iff. split; [|reflexivity].
    apply (all_chars_impl is_alnum).
    - intros c H. unfold boundary_char. now rewrite H.
    - now apply rand_draws_alnum. }
  assert (Z : nul_free b = true).
  { rewrite nul_free_all_chars. revert A. apply all_chars_impl.
    intros c H. exact (proj1 (boundary_char_plain c H)). }
  split.
  { subst b. rewrite (GenerateBoundaryString_eq Rand RandGenerator Hrange). cbn [fst].
    rewrite !length_append, chars_of_draws_length, rand_draws_length. reflexivity. }
  split; [exact A|]. split; [exact Z|]. split; [now apply c_str_nul_free|].
  apply String.eqb_eq. rewrite EncodeMIMEField_eqb. unfold no_escaped_char.
  revert A. apply all_chars_impl.
  intros c H. now rewrite (proj2 (boundary_char_plain c H)).
Qed.

(** X19, witness: the boundary that the example generator gives from the
    seed 7. *)
Lemma X19_GenerateBoundaryString_shape_witness :
  String.length (fst (GenerateBoundaryString example_generator 7%N)) = 56%nat.
Proof.
  refine (proj1 (X19_GenerateBoundaryString_shape N example_generator _ 7%N)).
  intros range rng H. unfold example_generator. cbn [fst].
  apply N.mod_lt. lia.
Defined.

Lemma char_at_nth (s : string) (n : nat) :
  char_at s (Z.of_nat n) = nth n (list_ascii_of_string s) NUL.
Proof.
  unfold char_at. destruct (Z.ltb_spec (Z.of_nat n) 0); [lia|].
  rewrite Nat2Z.id. revert n H. induction s as [|c s IH]; intros n H.
  - destruct n; reflexivity.
  - destruct n as [|n]; [reflexivity|]. simpl. apply IH. lia.
Qed.

Lemma char_at_kCharacters_inj (v w : N) :
  (v < 62)%N -> (w < 62)%N ->
  char_at kCharacters (Z.of_N v) = char_at kCharacters (Z.of_N w) -> v = w.
Proof.
  intros Hv Hw H.
  rewrite <- (N2Nat.id v), <- (N2Nat.id w), !nat_N_Z, !char_at_nth in H.
  apply N2Nat.inj.
  apply (proj1 (NoDup_nth (list_ascii_of_string kCharacters) NUL) kCharacters_NoDup);
    [| | exact H];
    change (List.length (list_ascii_of_string kCharacters)) with 62%nat; lia.
Qed.

(** X20. Different draws give different boundaries: two lists of values
    below 62 that select the same boundary are the same list. The 32 draws
    therefore reach [62^32] boundaries, which is more than [2^190], as the
    comment of [GenerateBoundaryString] says. *)
Theorem X20_boundary_of_draws_injective :
  (forall vs ws : list N,
     Forall (fun v => (v < 62)%N) vs -> Forall (fun w => (w < 62)%N) ws ->
     "---MultipartBoundary-" ++ chars_of_draws vs ++ "---"
     = "---MultipartBoundary-" ++ chars_of_draws ws ++ "---" ->
     vs = ws)
  /\ (2 ^ 190 < N.of_nat (strlen kCharacters) ^ 32)%N.
Proof.
  split; [|reflexivity].
  intros vs ws Hvs Hws H. apply append_inv_head in H.
  revert ws Hws H. induction Hvs as [|v vs Hv Hvs IH]; intros ws Hws H.
  - destruct Hws as [|w ws Hw Hws]; [reflexivity|]. exfalso.
    unfold chars_of_draws in H. cbn [map string_of_list_ascii append] in H.
    injection H as H _.
    pose proof (char_at_kCharacters_alnum w Hw) as A. rewrite <- H in A.
    discriminate A.
  - destruct Hws as [|w ws Hw Hws].
    + exfalso. unfold chars_of_draws in H. cbn [map string_of_list_ascii append] in H.
      injection H as H _.
      pose proof (char_at_kCharacters_alnum v Hv) as A. rewrite H in A.
      discriminate A.
    + unfold chars_of_draws in H. cbn [map string_of_list_ascii append] in H.
      injection H as Hc Hrest.
      rewrite (char_at_kCharacters_inj v w Hv Hw Hc). f_equal.
      now apply IH.
Qed.

(** X20, witness: the draws [0, 61] and [0, 60] select different
    boundaries. *)
Lemma X20_boundary_of_draws_injective_witness :
  "---MultipartBoundary-" ++ chars_of_draws [0; 61]%N ++ "---"
  <> "---MultipartBoundary-" ++ chars_of_draws [0; 60]%N ++ "---".
Proof.
  intros H. apply (proj1 X20_boundary_of_draws_injective) in H.
  - discriminate H.
  - repeat constructor.
  - repeat constructor.
Defined.

(** ** The constructor *)

(** X21. A new builder has no field and no attachment; with a random source
    that keeps to its range its state has no NUL, and its body is the closing
    segment alone. *)
Theorem X21_new_builder :
  forall (Rand : Type) (RandGenerator : N -> Rand -> N * Rand),
    draws_in_range RandGenerator ->
    forall rng : Rand,
      let this := fst (new_HTTPMultipartBuilder RandGenerator rng) in
      M.is_empty (form_data_ this) = true
      /\ M.is_empty (file_attachments_ this) = true
      /\ boundary_ this = fst (GenerateBoundaryString RandGenerator rng)
      /\ nul_free_state this = true
      /\ stream_of this
         = Some (CompositeHTTPBodyStream
                   [StringHTTPBodyStream (closing_segment (boundary_ this))]).
Proof.
  intros Rand RandGenerator Hrange rng this.
  assert (E : this = empty_builder (fst (GenerateBoundaryString RandGenerator rng))).
  { subst this. unfold new_HTTPMultipartBuilder.
    now destruct (GenerateBoundaryString RandGenerator rng). }
  rewrite E. split; [reflexivity|]. split; [reflexivity|]. split; [reflexivity|].
  split; [|now rewrite stream_of_eq].
  unfold nul_free_state. cbn [empty_builder boundary_ form_data_ file_attachments_].
  rewrite (GenerateBoundaryString_eq Rand RandGenerator Hrange). cbn [fst].
  rewrite nul_free_all_chars, !all_chars_app.
  replace (all_chars (fun c => negb (Ascii.eqb c NUL))
             (chars_of_draws (fst (rand_draws RandGenerator 62 32 rng)))) with true;
    [reflexivity|].
  symmetry. apply (all_chars_impl is_alnum); [|now apply rand_draws_alnum].
  intros c H. apply boundary_char_plain. unfold boundary_char. now rewrite H.
Qed.

(** X21, witness: the new builder of the example generator from the seed
    42. *)
Lemma X21_new_builder_witness :
  stream_of (fst (new_HTTPMultipartBuilder example_generator 42%N))
  = Some (CompositeHTTPBodyStream
            [StringHTTPBodyStream
               ("-----MultipartBoundary-0HFnB097wdpqoWw1aT7vd50WIUHDvpFh-----" ++ crlf)]).
Proof.
  refine (eq_trans
            (proj2 (proj2 (proj2 (proj2
               (X21_new_builder N example_generator _ 42%N))))) _).
  - intros range rng H. unfold example_generator. cbn [fst].
    apply N.mod_lt. lia.
  - vm_compute. reflexivity.
Defined.

(** ** GetBodyStream, further *)

Lemma read_emitted_layout (content : FilePath -> string) (this : HTTPMultipartBuilder) :
  read_list (fun p => Some (content p)) (emitted_layout this)
  = Some (emitted_bytes content this).
Proof.
  unfold emitted_layout, emitted_bytes.
  apply read_list_app; [|apply read_list_app].
  - induction (M.elements (form_data_ this)) as [|kv l IH]; [reflexivity|].
    simpl. now rewrite IH.
  - induction (M.elements (file_attachments_ this)) as [|ka l IH]; [reflexivity|].
    simpl. rewrite IH. now rewrite !append_assoc.
  - simpl. now rewrite append_nil_r.
Qed.

Lemma c_str_prefix (s : string) : exists rest, s = c_str s ++ rest.
Proof.
  induction s as [|c s [rest IH]]; [now exists EmptyString|].
  cbn [c_str]. destruct (Ascii.eqb c NUL).
  - now exists (String c s).
  - exists rest. cbn [append]. now rewrite <- IH.
Qed.

(** X22. The layout of the body for every state: the fields in the order of
    their keys, then the attachments in the order of theirs, each as header,
    file and line break, then the closing segment. In the headers the
    boundary, the escaped key, the stored file name and the content type stop
    at their first NUL; the values, and the boundary of the closing segment,
    are emitted whole. *)
Theorem X22_body_layout_of_every_state :
  forall (this : HTTPMultipartBuilder),
    stream_of this = Some (CompositeHTTPBodyStream (emitted_layout this))
    /\ forall content : FilePath -> string,
         ReadAll (fun p => Some (content p))
                 (CompositeHTTPBodyStream (emitted_layout this))
         = Some (emitted_bytes content this).
Proof.
  intros this. split.
  - now rewrite stream_of_eq, body_streams_emitted.
  - intros content. rewrite ReadAll_Composite. apply read_emitted_layout.
Qed.

(** X23. Whatever the builder holds, the bytes of its body begin with the
    two hyphens and the boundary up to its first NUL, and end with the closing
    segment. *)
Theorem X23_body_starts_and_ends_with_boundary :
  forall (this : HTTPMultipartBuilder) (content : FilePath -> string),
    exists stream bytes before after,
      stream_of this = Some stream
      /\ ReadAll (fun p => Some (content p)) stream = Some bytes
      /\ bytes = "--" ++ c_str (boundary_ this) ++ after
      /\ bytes = before ++ closing_segment (boundary_ this).
Proof.
  intros this content.
  assert (S : exists after,
             emitted_bytes content this = "--" ++ c_str (boundary_ this) ++ after).
  { unfold emitted_bytes.
    destruct (M.elements (form_data_ this)) as [|kv fields].
    - destruct (M.elements (file_attachments_ this)) as [|ka atts].
      + destruct (c_str_prefix (boundary_ this)) as [rest E].
        exists (rest ++ "--" ++ crlf). cbn [map concat_strings append].
        unfold closing_segment. rewrite E at 1. now rewrite !append_assoc.
      + eexists. cbn [map concat_strings]. unfold emitted_attachment_header.
        cbn [append]. rewrite !append_assoc. reflexivity.
    - eexists. cbn [map concat_strings]. unfold emitted_field_segment.
      cbn [append]. rewrite !append_assoc. reflexivity. }
  destruct S as [after S].
  eexists. exists (emitted_bytes content this). eexists. eexists.
  split; [rewrite stream_of_eq, body_streams_emitted; reflexivity|].
  split; [rewrite ReadAll_Composite; apply read_emitted_layout|].
  split; [exact S|].
  unfold emitted_bytes. rewrite <- append_assoc. reflexivity.
Qed.

(** ** Sequences of calls *)

Lemma perform_nul_free (op : Operation) (this this' : HTTPMultipartBuilder) :
  nul_free_state this = true -> operation_nul_free op = true ->
  perform op this = Ok (tt, this') ->
  nul_free_state this' = true.
Proof.
  intros H Hop Hrun. destruct op as [key value|key u p ctype]; cbn in Hop, Hrun.
  - pose proof (nul_free_state_SetFormData key value this H Hop) as G.
    unfold state_after in G. now rewrite Hrun in G.
  - apply andb_true_iff in Hop. destruct Hop as [Hk Hu].
    pose proof (nul_free_state_SetFileAttachment key u p ctype this H Hk Hu) as G.
    unfold state_after in G. now rewrite Hrun in G.
Qed.

Lemma perform_all_nul_free (ops : list Operation) :
  forall this this',
    nul_free_state this = true -> forallb operation_nul_free ops = true ->
    perform_all ops this = Ok (tt, this') ->
    nul_free_state this' = true.
Proof.
  induction ops as [|op ops IH]; intros this this' H Hops Hrun.
  - injection Hrun as <-. exact H.
  - cbn [forallb] in Hops. apply andb_true_iff in Hops. destruct Hops as [Hop Hops].
    cbn [perform_all] in Hrun. unfold bind in Hrun.
    destruct (perform op this) as [[[] this1]|] eqn:E; [|discriminate Hrun].
    apply (IH this1 this'); [|exact Hops | exact Hrun].
    now apply (perform_nul_free op this this1).
Qed.

(** X24. A state without NUL stays without NUL through any sequence of
    [SetFormData] and [SetFileAttachment] calls whose keys and upload names
    have no NUL, whatever the values, paths and content types are; when the
    sequence returns, the body of the builder has the layout of the
    specification, with every key and file name emitted whole. *)
Theorem X24_calls_without_NUL_keep_the_layout :
  forall (ops : list Operation) (this this' : HTTPMultipartBuilder),
    nul_free_state this = true ->
    forallb operation_nul_free ops = true ->
    perform_all ops this = Ok (tt, this') ->
    nul_free_state this' = true
    /\ stream_of this' = Some (CompositeHTTPBodyStream (spec_layout this'))
    /\ forall content : FilePath -> string,
         ReadAll (fun p => Some (content p)) (CompositeHTTPBodyStream (spec_layout this'))
         = Some (spec_bytes content this').
Proof.
  intros ops this this' H Hops Hrun.
  pose proof (perform_all_nul_free ops this this' H Hops Hrun) as G.
  split; [exact G|]. split.
  - now rewrite stream_of_eq, (body_streams_nul_free this' G).
  - intros content. rewrite ReadAll_Composite. apply read_spec_layout.
Qed.

(** X24, witness: two fields and an attachment set on the empty builder. *)
Lemma X24_calls_without_NUL_keep_the_layout_witness :
  let ops := [OpSetFormData "name" "value";
              OpSetFileAttachment "file" "a.txt" "/tmp/a" "text/plain";
              OpSetFormData "other" (String NUL "x")] in
  nul_free_state (state_after (perform_all ops) (empty_builder "B")) = true.
Proof.
  intros ops.
  refine (proj1 (X24_calls_without_NUL_keep_the_layout ops (empty_builder "B")
                   (state_after (perform_all ops) (empty_builder "B")) _ _ _));
    reflexivity.
Defined.

(** ** The parts of one name *)

Lemma prefix_app_head (a x y : string) :
  String.prefix (a ++ x) (a ++ y) = String.prefix x y.
Proof.
  induction a as [|c a IH]; [reflexivity|].
  cbn [append String.prefix]. destruct (Ascii.ascii_dec c c); [exact IH | congruence].
Qed.

Lemma prefix_nil (s : string) : String.prefix EmptyString s = true.
Proof. now destruct s. Qed.

(** Two texts without a double quote, each followed by one: the first is a
    prefix of the second exactly when the texts are the same. *)
Lemma prefix_up_to_quote (a a' r : string) :
  no_literal_break_or_quote a = true -> no_literal_break_or_quote a' = true ->
  String.prefix (a ++ quote) (a' ++ quote ++ r) = String.eqb a a'.
Proof.
  unfold no_literal_break_or_quote, quote.
  revert a'. induction a as [|c a IH]; intros [|c' a'] Ha Ha'.
  - cbn [append String.prefix String.eqb].
    destruct (Ascii.ascii_dec DQUOTE DQUOTE); [apply prefix_nil | congruence].
  - cbn [all_chars] in Ha'. apply andb_true_iff in Ha'. destruct Ha' as [Hc' _].
    cbn [append String.prefix String.eqb].
    destruct (Ascii.ascii_dec DQUOTE c') as [<-|]; [discriminate Hc' | reflexivity].
  - cbn [all_chars] in Ha. apply andb_true_iff in Ha. destruct Ha as [Hc _].
    cbn [append String.prefix String.eqb].
    destruct (Ascii.ascii_dec c DQUOTE) as [->|]; [discriminate Hc | reflexivity].
  - cbn [all_chars] in Ha, Ha'. apply andb_true_iff in Ha, Ha'.
    destruct Ha as [_ Ha], Ha' as [_ Ha'].
    cbn [append String.prefix String.eqb].
    destruct (Ascii.ascii_dec c c') as [<-|N].
    + rewrite Ascii.eqb_refl. now apply IH.
    + apply Ascii.eqb_neq in N. now rewrite N.
Qed.

Lemma eqb_EncodeMIMEField (a b : string) :
  String.eqb (EncodeMIMEField a) (EncodeMIMEField b) = String.eqb a b.
Proof.
  destruct (String.eqb_spec a b) as [->|N].
  - apply String.eqb_refl.
  - apply String.eqb_neq. intros H. apply N. now apply EncodeMIMEField_inj.
Qed.

Lemma is_part_named_field (b key : string) (kv : string * string) :
  nul_free (fst kv) = true ->
  is_part_named b key (field_stream b kv) = String.eqb key (fst kv).
Proof.
  intros Hk. rewrite field_stream_emitted. cbn [is_part_named].
  unfold part_name_prefix, emitted_field_segment, disposition_name_line.
  rewrite (c_str_nul_free _ Hk).
  rewrite (prefix_app_head "--"), prefix_app_head, (prefix_app_head crlf).
  rewrite !append_assoc.
  rewrite (prefix_app_head "Content-Disposition: form-data; name="),
    (prefix_app_head quote).
  rewrite prefix_up_to_quote by apply no_literal_EncodeMIMEField.
  apply eqb_EncodeMIMEField.
Qed.

Lemma count_is_part_named_attachment (b key : string) (ka : string * FileAttachment) :
  nul_free (fst ka) = true ->
  count (is_part_named b key) (attachment_streams b ka)
  = if String.eqb key (fst ka) then 1%nat else 0%nat.
Proof.
  intros Hk. rewrite attachment_streams_emitted. unfold count.
  cbn [filter is_part_named].
  replace (String.prefix (part_name_prefix b key) crlf) with false by reflexivity.
  unfold part_name_prefix, emitted_attachment_header, disposition_file_line,
    disposition_name_line.
  rewrite (c_str_nul_free _ Hk).
  rewrite (prefix_app_head "--"), prefix_app_head, (prefix_app_head crlf).
  rewrite !append_assoc.
  rewrite (prefix_app_head "Content-Disposition: form-data; name="),
    (prefix_app_head quote).
  rewrite prefix_up_to_quote by apply no_literal_EncodeMIMEField.
  rewrite eqb_EncodeMIMEField. now destruct (String.eqb key (fst ka)).
Qed.

Lemma closing_not_part_named (b key : string) :
  String.prefix (part_name_prefix b key) (closing_segment b) = false.
Proof.
  unfold part_name_prefix, closing_segment. rewrite (prefix_app_head "--").
  apply prefix_c_str_delimiter.
Qed.

Lemma count_key_NoDupA {V : Type} (key : string) (l : list (string * V)) :
  NoDupA (@M.eq_key V) l ->
  count (fun kv => String.eqb key (fst kv)) l
  = if existsb (fun kv => String.eqb key (fst kv)) l then 1%nat else 0%nat.
Proof.
  unfold count. induction 1 as [|x l Hx Hl IH]; [reflexivity|].
  cbn [filter existsb].
  match goal with
  | |- context [String.eqb key ?t] => destruct (String.eqb key t) eqn:Ex
  end.
  - cbn [orb List.length]. f_equal. apply String.eqb_eq in Ex.
    destruct (existsb (fun kv => String.eqb key (fst kv)) l) eqn:X; [|exact IH].
    exfalso. apply Hx. apply existsb_exists in X. destruct X as (y & Hin & Hy).
    apply String.eqb_eq in Hy. apply InA_alt. exists y. split; [|exact Hin].
    unfold M.eq_key, M.Raw.PX.eqk. congruence.
  - cbn [orb]. exact IH.
Qed.

Lemma existsb_key_mem {V : Type} (key : string) (m : M.t V) :
  existsb (fun kv => String.eqb key (fst kv)) (M.elements m) = M.mem key m.
Proof.
  rewrite F.elements_b.
  induction (M.elements m) as [|[k v] l IH]; [reflexivity|].
  cbn [existsb fst]. rewrite IH. f_equal. unfold F.eqb.
  destruct (M.E.eq_dec key k) as [<-|N];
    [apply String.eqb_refl | now apply String.eqb_neq].
Qed.

Lemma count_key_elements {V : Type} (key : string) (m : M.t V) :
  count (fun kv => String.eqb key (fst kv)) (M.elements m)
  = if M.mem key m then 1%nat else 0%nat.
Proof.
  rewrite count_key_NoDupA by apply M.elements_3w.
  now rewrite existsb_key_mem.
Qed.

(** X25. In a state whose keys have no NUL, the number of parts of the body
    that carry a given name is one if the name is a key of the form data,
    plus one if it is a key of the attachments: no collection emits a key
    twice, no part carries the name of another key, and a key that is in both
    collections is emitted twice. *)
Theorem X25_parts_of_one_name :
  forall (this : HTTPMultipartBuilder) (key : string),
    keys_nul_free this = true ->
    count (is_part_named (boundary_ this) key) (body_streams this)
    = ((if M.mem key (form_data_ this) then 1 else 0)
       + (if M.mem key (file_attachments_ this) then 1 else 0))%nat.
Proof.
  intros this key H. unfold keys_nul_free in H.
  rewrite !andb_true_iff, !forallb_forall in H. destruct H as [Hfd Hfa].
  unfold body_streams, boundary. rewrite !count_app.
  rewrite <- (count_key_elements key (form_data_ this)),
    <- (count_key_elements key (file_attachments_ this)).
  assert (F1 : count (is_part_named (boundary_ this) key)
                 (map (field_stream (boundary_ this)) (M.elements (form_data_ this)))
               = count (fun kv => String.eqb key (fst kv)) (M.elements (form_data_ this))).
  { unfold count. induction (M.elements (form_data_ this)) as [|kv l IH]; [reflexivity|].
    cbn [map filter]. rewrite is_part_named_field by (apply Hfd; now left).
    assert (IH' := IH (fun x Hx => Hfd x (or_intror Hx))).
    match goal with
    | |- context [String.eqb key ?t] => destruct (String.eqb key t)
    end; cbn [List.length]; now rewrite IH'. }
  assert (F2 : count (is_part_named (boundary_ this) key)
                 (flat_map (attachment_streams (boundary_ this))
                           (M.elements (file_attachments_ this)))
               = count (fun ka => String.eqb key (fst ka))
                       (M.elements (file_attachments_ this))).
  { induction (M.elements (file_attachments_ this)) as [|ka l IH]; [reflexivity|].
    cbn [flat_map]. rewrite count_app, IH by (intros x Hx; apply Hfa; now right).
    rewrite count_is_part_named_attachment.
    - unfold count. cbn [filter].
      match goal with
      | |- context [String.eqb key ?t] => destruct (String.eqb key t)
      end; reflexivity.
    - exact (Hfa ka (or_introl eq_refl)). }
  rewrite F1, F2. unfold count at 3. cbn [filter is_part_named].
  fold (closing_segment (boundary_ this)).
  rewrite closing_not_part_named. cbn [List.length]. lia.
Qed.

(** X25, witness: after the field [k] and a file attached under [k] with
    an upload name that holds a NUL, two parts carry the name [k]. *)
Lemma X25_parts_of_one_name_witness :
  let this := state_after (SetFormData "k" "v" ;;
                           SetFileAttachment "k" (String "a" (String NUL "b")) "/p"
                                             EmptyString)
                          (empty_builder "B") in
  nul_free_state this = false
  /\ count (is_part_named "B" "k") (body_streams this) = 2%nat.
Proof.
  intros this. split; [reflexivity|].
  exact (X25_parts_of_one_name this "k" eq_refl).
Defined.

(** ** The header lines cannot be broken *)

Lemma count_char_app (c : ascii) (a b : string) :
  count_char c (a ++ b) = (count_char c a + count_char c b)%nat.
Proof. induction a as [|x a IH]; simpl; [reflexivity | rewrite IH; lia]. Qed.

Lemma all_chars_c_str (p : ascii -> bool) (s : string) :
  all_chars p s = true -> all_chars p (c_str s) = true.
Proof.
  induction s as [|c s IH]; [reflexivity|].
  cbn [all_chars c_str]. rewrite andb_true_iff. intros [Hc Hs].
  destruct (Ascii.eqb c NUL); [reflexivity|].
  cbn [all_chars]. now rewrite Hc, IH.
Qed.

Lemma count_char_absent (c : ascii) (s : string) :
  all_chars (fun x => negb (Ascii.eqb x c)) s = true -> count_char c s = 0%nat.
Proof.
  induction s as [|x s IH]; [reflexivity|].
  cbn [all_chars count_char]. rewrite andb_true_iff, negb_true_iff.
  intros [-> Hs]. now rewrite IH.
Qed.

Lemma no_break_or_quote_counts (s : string) :
  no_literal_break_or_quote s = true ->
  count_char CR (c_str s) = 0%nat /\ count_char LF (c_str s) = 0%nat
  /\ count_char DQUOTE (c_str s) = 0%nat.
Proof.
  unfold no_literal_break_or_quote. intros H.
  repeat split; apply count_char_absent, all_chars_c_str;
    revert H; apply all_chars_impl; intros c; rewrite !negb_true_iff, !orb_false_iff;
    tauto.
Qed.

Lemma well_escaped_no_break_or_quote (s : string) :
  well_escaped s = true -> no_literal_break_or_quote s = true.
Proof.
  intros H. pose proof (well_escaped_no_literal s H) as G. clear H.
  unfold no_literal_break_or_quote.
  induction s as [|c s IH]; [reflexivity|].
  cbn [all_chars]. rewrite IH by (intros x Hx; apply G; now right).
  destruct (G c (or_introl eq_refl)) as (H1 & H2 & H3).
  apply Ascii.eqb_neq in H1, H2, H3. now rewrite H1, H2, H3.
Qed.

Lemma safe_no_break_or_quote (s : string) :
  all_chars in_safe_set s = true -> no_literal_break_or_quote s = true.
Proof.
  unfold no_literal_break_or_quote. apply all_chars_impl.
  intros c. destruct c as [[] [] [] [] [] [] [] []]; vm_compute; intuition discriminate.
Qed.

(** X26. The name, the file name and the content type cannot break a header
    or close a quoted text. With a boundary that has no line break and no
    double quote, the header that [GetFormDataBoundary] returns has, whatever
    the name is, the one line break after the boundary and the two double
    quotes around the name; and the header of an attachment whose file name
    is escaped and whose content type is made of the accepted characters has
    its four line breaks and its four double quotes. *)
Theorem X26_headers_cannot_be_broken :
  (forall b name : string,
     no_literal_break_or_quote b = true ->
     count_char CR (GetFormDataBoundary b name) = 1%nat
     /\ count_char LF (GetFormDataBoundary b name) = 1%nat
     /\ count_char DQUOTE (GetFormDataBoundary b name) = 2%nat)
  /\ (forall (b key : string) (a : FileAttachment),
        no_literal_break_or_quote b = true ->
        well_escaped (filename a) = true ->
        all_chars in_safe_set (content_type a) = true ->
        exists header,
          attachment_streams b (key, a)
          = [StringHTTPBodyStream header;
             FileHTTPBodyStream (path a);
             StringHTTPBodyStream crlf]
          /\ count_char CR header = 4%nat
          /\ count_char LF header = 4%nat
          /\ count_char DQUOTE header = 4%nat).
Proof.
  split.
  - intros b name Hb. rewrite GetFormDataBoundary_eq.
    destruct (no_break_or_quote_counts b Hb) as (B1 & B2 & B3).
    destruct (no_break_or_quote_counts (EncodeMIMEField name)
                (no_literal_EncodeMIMEField name)) as (N1 & N2 & N3).
    rewrite !count_char_app, B1, B2, B3, N1, N2, N3. repeat split; reflexivity.
  - intros b key a Hb Hf Ht. eexists. split; [apply attachment_streams_emitted|].
    cbn [fst snd]. unfold emitted_attachment_header, disposition_file_line,
      disposition_name_line.
    destruct (no_break_or_quote_counts b Hb) as (B1 & B2 & B3).
    destruct (no_break_or_quote_counts (EncodeMIMEField key)
                (no_literal_EncodeMIMEField key)) as (N1 & N2 & N3).
    destruct (no_break_or_quote_counts (filename a)
                (well_escaped_no_break_or_quote _ Hf)) as (F1 & F2 & F3).
    destruct (no_break_or_quote_counts (content_type a)
                (safe_no_break_or_quote _ Ht)) as (T1 & T2 & T3).
    rewrite <- c_str_EncodeMIMEField.
    rewrite !count_char_app, B1, B2, B3, N1, N2, N3, F1, F2, F3, T1, T2, T3.
    repeat split; reflexivity.
Qed.

(** X26, witness: a name made of a double quote and a line break. *)
Lemma X26_headers_cannot_be_broken_witness :
  count_char DQUOTE (GetFormDataBoundary "B" (String DQUOTE (String CR (String LF "x"))))
  = 2%nat.
Proof.
  apply (proj1 X26_headers_cannot_be_broken "B"). reflexivity.
Defined.
